(** * singer.messages: the Singer wire protocol, embedded and verified

    A shallow embedding of [singer/messages.py]: the five message classes
    with their constructors and [asdict], [parse_message], [format_message]
    and the [write_*] helpers, over a model of the Python values the code
    handles.  The libraries the module calls ([orjson], [ciso8601], [pytz],
    [singer.utils.strftime]) are collaborators: [orjson] is modelled at the
    level of JSON documents, the date and time functions are the fields of
    the class [Libs]. *)

From Stdlib Require Import ZArith List String Ascii Bool Lia.
Import ListNotations.

Local Open Scope string_scope.
Local Open Scope Z_scope.
Set Warnings "-register-all".

(** ** Python floats (IEEE 754 binary64) *)

(** A finite float is [(-1)^neg * m * 2^e], kept in the canonical form of
    binary64: [m < 2^53], and [2^52 <= m] unless [e = -1074] (subnormals and
    zero), [e <= 971]. *)
Inductive pyfloat : Type :=
| FNan
| FInf (neg : bool)
| FFin (neg : bool) (m : N) (e : Z).

(** [float.is_integer()]: finite, and no fractional part. *)
Definition float_is_integer (f : pyfloat) : bool :=
  match f with
  | FFin _ m e => if 0 <=? e then true else Z.of_N m mod 2 ^ (- e) =? 0
  | _ => false
  end.

Definition float_is_finite (f : pyfloat) : bool :=
  match f with FFin _ _ _ => true | _ => false end.

(** [floor (log2 (p / q))] for positive [p] and [q]. *)
Definition floor_log2_ratio (p q : Z) : Z :=
  let e0 := Z.log2 p - Z.log2 q in
  let below := if 0 <=? e0 then p <? q * 2 ^ e0 else p * 2 ^ (- e0) <? q in
  if below then e0 - 1 else e0.

(** [n / d] rounded to the nearest integer, ties to the even one. *)
Definition div_half_even (n d : Z) : Z :=
  let q := n / d in
  let r := n mod d in
  match 2 * r ?= d with
  | Lt => q
  | Gt => q + 1
  | Eq => if Z.even q then q else q + 1
  end.

(** The binary64 nearest to [(-1)^neg * p / q] ([0 <= p], [0 < q]), ties to
    even; beyond the largest finite float the result is an infinity. *)
Definition binary64_of_ratio (neg : bool) (p q : Z) : pyfloat :=
  if p =? 0 then FFin neg 0 (-1074)
  else
    let e := Z.max (floor_log2_ratio p q - 52) (-1074) in
    let n := if 0 <=? e then p else p * 2 ^ (- e) in
    let d := if 0 <=? e then q * 2 ^ e else q in
    let m := div_half_even n d in
    let m' := if m =? 2 ^ 53 then 2 ^ 52 else m in
    let e' := if m =? 2 ^ 53 then e + 1 else e in
    if 971 <? e' then FInf neg else FFin neg (Z.to_N m') e'.

(** ** decimal.Decimal *)

(** A finite decimal is [(-1)^neg * coef * 10^exp]. *)
Inductive decimal : Type :=
| DFin (neg : bool) (coef : N) (exp : Z)
| DInf (neg : bool)
| DNaN (signaling : bool).

(** The decimal has no fractional part. *)
Definition decimal_is_integral (d : decimal) : bool :=
  match d with
  | DFin _ c e => if 0 <=? e then true else Z.of_N c mod 10 ^ (- e) =? 0
  | _ => false
  end.

Definition decimal_is_finite (d : decimal) : bool :=
  match d with DFin _ _ _ => true | _ => false end.

(** The integer part, towards zero. *)
Definition decimal_trunc (neg : bool) (c : N) (e : Z) : Z :=
  let a := if 0 <=? e then Z.of_N c * 10 ^ e else Z.of_N c / 10 ^ (- e) in
  if neg then - a else a.

(** The binary64 nearest to the finite decimal [(-1)^neg * c * 10^e]. *)
Definition float_of_finite (neg : bool) (c : N) (e : Z) : pyfloat :=
  if 0 <=? e then binary64_of_ratio neg (Z.of_N c * 10 ^ e) 1
  else binary64_of_ratio neg (Z.of_N c) (10 ^ (- e)).

(** [float(d)]: the nearest binary64; a signaling NaN raises (no result). *)
Definition float_of_decimal (d : decimal) : option pyfloat :=
  match d with
  | DFin neg c e => Some (float_of_finite neg c e)
  | DInf neg => Some (FInf neg)
  | DNaN false => Some FNan
  | DNaN true => None
  end.

(** [int(d)]: the integer part; infinities and NaNs raise (no result). *)
Definition int_of_decimal (d : decimal) : option Z :=
  match d with
  | DFin neg c e => Some (decimal_trunc neg c e)
  | _ => None
  end.

(** ** datetime.datetime *)

(** The fields of a [datetime]; [tzinfo] is [None] for a naive value and
    otherwise the UTC offset of its time zone, in minutes. *)
Record datetime : Type := mkDatetime {
  year : Z; month : Z; day : Z;
  hour : Z; minute : Z; second : Z; microsecond : Z;
  tzinfo : option Z
}.

(** ** Python values *)

Inductive pyval : Type :=
| PNone
| PBool (b : bool)
| PInt (n : Z)
| PFloat (f : pyfloat)
| PStr (s : string)
| PBytes (s : string)
| PList (l : list pyval)
| PTuple (l : list pyval)
| PDict (items : list (pyval * pyval))
| PDecimal (d : decimal)
| PDatetime (t : datetime).

(** A [dict], in insertion order; its keys are pairwise different. *)
Definition py_dict : Type := list (pyval * pyval).

(** Truth value testing, as [if x:] and [x or y] do it. *)
Definition truthy (v : pyval) : bool :=
  match v with
  | PNone => false
  | PBool b => b
  | PInt n => negb (n =? 0)
  | PFloat (FFin _ m _) => negb (m =? 0)%N
  | PFloat _ => true
  | PStr s | PBytes s => negb (s =? "")%string
  | PList l | PTuple l => match l with [] => false | _ => true end
  | PDict d => match d with [] => false | _ => true end
  | PDecimal (DFin _ c _) => negb (c =? 0)%N
  | PDecimal _ => true
  | PDatetime _ => true
  end.

(** [v is None] *)
Definition is_None (v : pyval) : bool :=
  match v with PNone => true | _ => false end.

(** [isinstance(v, (str, bytes))] *)
Definition is_str_or_bytes (v : pyval) : bool :=
  match v with PStr _ | PBytes _ => true | _ => false end.

(** [isinstance(v, list)] *)
Definition is_list (v : pyval) : bool :=
  match v with PList _ => true | _ => false end.

(** [x or y] *)
Definition py_or (x y : pyval) : pyval := if truthy x then x else y.

(** The key is the string [k]. *)
Definition is_key (k : string) (key : pyval) : bool :=
  match key with PStr s => (s =? k)%string | _ => false end.

(** The value of the key [k], when the dict has it. *)
Fixpoint dict_lookup (k : string) (d : py_dict) : option pyval :=
  match d with
  | [] => None
  | (key, v) :: d' => if is_key k key then Some v else dict_lookup k d'
  end.

(** [d.get(k)] *)
Definition dict_get (k : string) (d : py_dict) : pyval :=
  match dict_lookup k d with Some v => v | None => PNone end.

(** [k in d] *)
Definition dict_contains (k : string) (d : py_dict) : bool :=
  match dict_lookup k d with Some _ => true | None => false end.

(** [d[k] = v]: the value of an existing key is replaced in place, a new key
    goes to the end. *)
Fixpoint dict_set (k : string) (v : pyval) (d : py_dict) : py_dict :=
  match d with
  | [] => [(PStr k, v)]
  | (key, v0) :: d' =>
      if is_key k key then (key, v) :: d' else (key, v0) :: dict_set k v d'
  end.

(** ** Exceptions *)

(** An f-string: literal text and formatted values. *)
Inductive fragment : Type :=
| Lit (s : string)
| Fmt (v : pyval).

Definition message : Type := list fragment.

Inductive exn : Type :=
| Exception_ (msg : message)
| ValueError (msg : message)
| TypeError
| AttributeError
| KeyError (key : pyval)
| JSONEncodeError (msg : message).

Inductive result (A : Type) : Type :=
| Ok (a : A)
| Raise (e : exn).
Arguments Ok {A} a.
Arguments Raise {A} e.

Definition bind {A B : Type} (r : result A) (k : A -> result B) : result B :=
  match r with Ok a => k a | Raise e => Raise e end.

Declare Scope result_scope.
Delimit Scope result_scope with result.
Notation "x <- r ;; k" := (bind r (fun x => k))
  (at level 61, r at next level, right associativity) : result_scope.

(** [mapM]: the results of [f] over the list, up to the first exception. *)
Fixpoint mapM {A B : Type} (f : A -> result B) (l : list A) : result (list B) :=
  match l with
  | [] => Ok []
  | a :: l' =>
      match f a with
      | Ok b => match mapM f l' with Ok bs => Ok (b :: bs) | Raise e => Raise e end
      | Raise e => Raise e
      end
  end.

(** ** JSON documents and orjson *)

(** A JSON document.  A number written with a fraction or an exponent is a
    [JFloat], any other number a [JInt]: [orjson] writes and reads the two
    apart. *)
Inductive json : Type :=
| JNull
| JBool (b : bool)
| JInt (n : Z)
| JFloat (f : pyfloat)
| JStr (s : string)
| JArr (l : list json)
| JObj (fields : list (string * json)).

(** The bytes [orjson.dumps] returns, and [orjson.loads] reads: the text of
    one document, with or without a newline after it.  [orjson.loads] reads
    back the document [orjson.dumps] wrote, so the model keeps the document
    and not its characters; a text that is no JSON is outside the model. *)
Record encoded : Type := mkEncoded {
  document : json;
  trailing_newline : bool
}.

(** [orjson.OPT_APPEND_NEWLINE] *)
Definition OPT_APPEND_NEWLINE : Z := 1024.

(** [orjson.loads] on a document: objects become dicts (of a key written
    twice the last value stays), arrays become lists. *)
Fixpoint loads_value (j : json) : pyval :=
  match j with
  | JNull => PNone
  | JBool b => PBool b
  | JInt n => PInt n
  | JFloat f => PFloat f
  | JStr s => PStr s
  | JArr l => PList (map loads_value l)
  | JObj fields =>
      PDict (fold_left (fun d kv => dict_set (fst kv) (snd kv) d)
                       (map (fun kv => (fst kv, loads_value (snd kv))) fields)
                       [])
  end.

Definition orjson_loads (msg : encoded) : pyval := loads_value (document msg).

(** The integers [orjson] writes: 64 bits, signed or unsigned. *)
Definition in_int64_range (n : Z) : bool :=
  (- 2 ^ 63 <=? n) && (n <? 2 ^ 64).

(** The types [orjson.dumps] writes without asking [default]. *)
Definition natively_supported (v : pyval) : bool :=
  match v with
  | PBytes _ | PDecimal _ => false
  | _ => true
  end.

(** How often [orjson] calls [default] on what [default] returned. *)
Definition DEFAULT_CALLS_LIMIT : nat := 254.

(** [orjson] calls [default] on a value of a type it does not write itself,
    and goes on with what [default] returns; an exception of [default]
    becomes a [JSONEncodeError]. *)
Fixpoint resolve_default (default : pyval -> result pyval) (calls : nat)
    (v : pyval) : result pyval :=
  if natively_supported v then Ok v
  else
    match calls with
    | O => Raise (JSONEncodeError [Lit "default serializer exceeds recursion limit"])
    | S calls' =>
        match default v with
        | Ok v' => resolve_default default calls' v'
        | Raise _ => Raise (JSONEncodeError [Lit "Type is not JSON serializable"])
        end
    end.

(** The key of an object: a [str] (no [OPT_NON_STR_KEYS] here). *)
Definition dumps_key (key : pyval) : result string :=
  match key with
  | PStr s => Ok s
  | _ => Raise (JSONEncodeError [Lit "Dict key must be str"])
  end.

(** The collaborators of the module. *)
Class Libs : Type := {
  (** [t.astimezone(pytz.utc)] *)
  astimezone_utc : datetime -> datetime;
  (** [singer.utils.strftime] on a datetime pegged at UTC *)
  utils_strftime : datetime -> string;
  (** [ciso8601.parse_datetime]; [None] when it raises *)
  ciso8601_parse_datetime : pyval -> option datetime;
  (** the text [orjson] writes for a [datetime] inside a payload *)
  orjson_datetime : datetime -> string;
  (** how deep [orjson.dumps] follows lists and dicts *)
  orjson_recursion_limit : nat
}.

(** ** A reference instance of the collaborators

    Enough of the date and time libraries to run the module on concrete
    inputs: the proleptic Gregorian calendar, the timestamp format of
    [singer.utils], and a reader of the extended ISO 8601 format (a date, [T]
    or a space, a time with an optional fraction, and an optional [Z] or
    numeric offset). *)
Module Reference.

(** Days since 1970-01-01 of a civil date. *)
Definition days_from_civil (y m d : Z) : Z :=
  let y' := if m <=? 2 then y - 1 else y in
  let era := y' / 400 in
  let yoe := y' - era * 400 in
  let doy := (153 * (if 2 <? m then m - 3 else m + 9) + 2) / 5 + d - 1 in
  let doe := yoe * 365 + yoe / 4 - yoe / 100 + doy in
  era * 146097 + doe - 719468.

(** The civil date of a number of days since 1970-01-01. *)
Definition civil_from_days (z : Z) : Z * Z * Z :=
  let z' := z + 719468 in
  let era := z' / 146097 in
  let doe := z' - era * 146097 in
  let yoe := (doe - doe / 1460 + doe / 36524 - doe / 146096) / 365 in
  let doy := doe - (365 * yoe + yoe / 4 - yoe / 100) in
  let mp := (5 * doy + 2) / 153 in
  let d := doy - (153 * mp + 2) / 5 + 1 in
  let m := if mp <? 10 then mp + 3 else mp - 9 in
  let y := yoe + era * 400 in
  (if m <=? 2 then y + 1 else y, m, d).

(** [t.astimezone(pytz.utc)]: the same instant, on the UTC clock.  A naive
    value is read as UTC. *)
Definition astimezone_utc (t : datetime) : datetime :=
  match tzinfo t with
  | None =>
      mkDatetime (year t) (month t) (day t) (hour t) (minute t) (second t)
                 (microsecond t) (Some 0)
  | Some offset =>
      let minutes := hour t * 60 + minute t - offset in
      let '(y, m, d) :=
        civil_from_days (days_from_civil (year t) (month t) (day t) + minutes / 1440) in
      mkDatetime y m d ((minutes mod 1440) / 60) ((minutes mod 1440) mod 60)
                 (second t) (microsecond t) (Some 0)
  end.

Definition digit (n : Z) : ascii := ascii_of_nat (48 + Z.to_nat (n mod 10)).

(** [n] in decimal, on [width] digits. *)
Fixpoint digits (width : nat) (n : Z) : string :=
  match width with
  | O => ""
  | S w => digits w (n / 10) ++ String (digit n) ""
  end.

(** Modelled from the spec: [singer.utils.strftime], whose source is not in
    [messages.py].  The fixed textual format of a UTC timestamp, with
    microseconds and the UTC designator: [%Y-%m-%dT%H:%M:%S.%fZ]. *)
Definition utils_strftime (t : datetime) : string :=
  digits 4 (year t) ++ "-" ++ digits 2 (month t) ++ "-" ++ digits 2 (day t)
  ++ "T" ++ digits 2 (hour t) ++ ":" ++ digits 2 (minute t) ++ ":"
  ++ digits 2 (second t) ++ "." ++ digits 6 (microsecond t) ++ "Z".

(** The text [orjson] writes for a datetime: RFC 3339, the fraction and the
    offset only when there is one. *)
Definition orjson_datetime (t : datetime) : string :=
  digits 4 (year t) ++ "-" ++ digits 2 (month t) ++ "-" ++ digits 2 (day t)
  ++ "T" ++ digits 2 (hour t) ++ ":" ++ digits 2 (minute t) ++ ":"
  ++ digits 2 (second t)
  ++ (if microsecond t =? 0 then "" else "." ++ digits 6 (microsecond t))
  ++ match tzinfo t with
     | None => ""
     | Some offset =>
         (if offset <? 0 then "-" else "+")
         ++ digits 2 (Z.abs offset / 60) ++ ":" ++ digits 2 (Z.abs offset mod 60)
     end.

Definition digit_value (c : ascii) : option Z :=
  let n := Z.of_nat (nat_of_ascii c) in
  if (48 <=? n) && (n <=? 57) then Some (n - 48) else None.

(** Exactly [width] digits at the head of the text. *)
Fixpoint take_digits (width : nat) (acc : Z) (l : list ascii)
  : option (Z * list ascii) :=
  match width with
  | O => Some (acc, l)
  | S w =>
      match l with
      | c :: l' =>
          match digit_value c with
          | Some v => take_digits w (acc * 10 + v) l'
          | None => None
          end
      | [] => None
      end
  end.

(** The character [c] at the head of the text. *)
Definition expect (c : ascii) (l : list ascii) : option (list ascii) :=
  match l with
  | c' :: l' => if Ascii.eqb c c' then Some l' else None
  | [] => None
  end.

(** A fraction of a second: up to six digits, as microseconds. *)
Fixpoint take_fraction (width : nat) (acc : Z) (l : list ascii)
  : Z * list ascii :=
  match width with
  | O => (acc, l)
  | S w =>
      match l with
      | c :: l' =>
          match digit_value c with
          | Some v => take_fraction w (acc + v * 10 ^ Z.of_nat w) l'
          | None => (acc, l)
          end
      | [] => (acc, l)
      end
  end.

Definition days_in_month (y m : Z) : Z :=
  if m =? 2 then
    if ((y mod 4 =? 0) && negb (y mod 100 =? 0)) || (y mod 400 =? 0) then 29 else 28
  else if (m =? 4) || (m =? 6) || (m =? 9) || (m =? 11) then 30 else 31.

(** The offset at the end of a timestamp: nothing (naive), [Z], or a sign
    with hours and minutes. *)
Definition parse_offset (l : list ascii) : option (option Z) :=
  match l with
  | [] => Some None
  | c :: l' =>
      if Ascii.eqb c "Z" then
        match l' with [] => Some (Some 0) | _ => None end
      else if Ascii.eqb c "+" || Ascii.eqb c "-" then
        match take_digits 2 0 l' with
        | Some (h, l1) =>
            match expect ":" l1 with
            | Some l2 =>
                match take_digits 2 0 l2 with
                | Some (m, []) =>
                    if (h <=? 23) && (m <=? 59) then
                      Some (Some (if Ascii.eqb c "-" then - (h * 60 + m) else h * 60 + m))
                    else None
                | _ => None
                end
            | None => None
            end
        | None => None
        end
      else None
  end.

Definition parse_text (l : list ascii) : option datetime :=
  match take_digits 4 0 l with
  | Some (y, l) =>
  match expect "-" l with
  | Some l =>
  match take_digits 2 0 l with
  | Some (mo, l) =>
  match expect "-" l with
  | Some l =>
  match take_digits 2 0 l with
  | Some (d, l) =>
  match (match expect "T" l with Some l' => Some l' | None => expect " " l end) with
  | Some l =>
  match take_digits 2 0 l with
  | Some (h, l) =>
  match expect ":" l with
  | Some l =>
  match take_digits 2 0 l with
  | Some (mi, l) =>
  match expect ":" l with
  | Some l =>
  match take_digits 2 0 l with
  | Some (s, l) =>
      let '(us, l) :=
        match expect "." l with
        | Some l' =>
            match l' with
            | c :: _ =>
                match digit_value c with
                | Some _ => take_fraction 6 0 l'
                | None => (0, l)
                end
            | [] => (0, l)
            end
        | None => (0, l)
        end in
      match parse_offset l with
      | Some tz =>
          if (1 <=? mo) && (mo <=? 12) && (1 <=? d) && (d <=? days_in_month y mo)
             && (h <=? 23) && (mi <=? 59) && (s <=? 59)
          then Some (mkDatetime y mo d h mi s us tz)
          else None
      | None => None
      end
  | None => None end
  | None => None end
  | None => None end
  | None => None end
  | None => None end
  | None => None end
  | None => None end
  | None => None end
  | None => None end
  | None => None end
  | None => None end.

(** [ciso8601.parse_datetime]: a [str] in the format above gives a datetime,
    anything else raises. *)
Definition ciso8601_parse_datetime (v : pyval) : option datetime :=
  match v with
  | PStr s => parse_text (list_ascii_of_string s)
  | _ => None
  end.

#[export] Instance libs : Libs := {
  astimezone_utc := Reference.astimezone_utc;
  utils_strftime := Reference.utils_strftime;
  ciso8601_parse_datetime := Reference.ciso8601_parse_datetime;
  orjson_datetime := Reference.orjson_datetime;
  orjson_recursion_limit := 254
}.

End Reference.

(** ** The messages *)

(** The five message classes, with the attributes their [__init__] sets. *)
Inductive Message : Type :=
| RECORD (stream record version time_extracted : pyval)
| SCHEMA (stream schema key_properties bookmark_properties : pyval)
| STATE (value : pyval)
| ACTIVATE_VERSION (stream version : pyval)
| BATCH (stream filepath format compression batch_size time_extracted : pyval).

Definition naive_time_extracted : message :=
  [Lit "'time_extracted' must be either None or an aware datetime (with a time zone)"].

(** [if time_extracted and not time_extracted.tzinfo: raise ValueError(...)];
    a true value that is no datetime has no [tzinfo]. *)
Definition check_time_extracted (time_extracted : pyval) : result unit :=
  if truthy time_extracted then
    match time_extracted with
    | PDatetime t =>
        match tzinfo t with
        | Some _ => Ok tt
        | None => Raise (ValueError naive_time_extracted)
        end
    | _ => Raise AttributeError
    end
  else Ok tt.

(** [RecordMessage.__init__] *)
Definition RecordMessage (stream record version time_extracted : pyval)
  : result Message :=
  (_ <- check_time_extracted time_extracted ;;
   Ok (RECORD stream record version time_extracted))%result.

(** [SchemaMessage.__init__] *)
Definition SchemaMessage (stream schema key_properties bookmark_properties : pyval)
  : result Message :=
  let bookmark_properties :=
    if is_str_or_bytes bookmark_properties then PList [bookmark_properties]
    else bookmark_properties in
  if truthy bookmark_properties && negb (is_list bookmark_properties) then
    Raise (Exception_ [Lit "bookmark_properties must be a string or list of strings"])
  else Ok (SCHEMA stream schema key_properties bookmark_properties).

(** [StateMessage.__init__] *)
Definition StateMessage (value : pyval) : result Message :=
  Ok (STATE value).

(** [ActivateVersionMessage.__init__] *)
Definition ActivateVersionMessage (stream version : pyval) : result Message :=
  Ok (ACTIVATE_VERSION stream version).

(** [BatchMessage.__init__] *)
Definition BatchMessage
    (stream filepath file_format compression batch_size time_extracted : pyval)
  : result Message :=
  (_ <- check_time_extracted time_extracted ;;
   Ok (BATCH stream filepath (py_or file_format (PStr "jsonl"))
             compression batch_size time_extracted))%result.

(** The state of the logger: the warnings so far. *)
Definition logger : Type := list string.

(** [LOGGER.warning(text)] *)
Definition LOGGER_warning (text : string) (log : logger) : logger :=
  (log ++ [text])%list.

(** [sys.stdout.buffer]: what was written and not yet flushed, and what was
    flushed to the sink. *)
Record stdout : Type := mkStdout {
  buffered : list encoded;
  flushed : list encoded
}.

Definition stdout_write (b : encoded) (out : stdout) : stdout :=
  mkStdout (buffered out ++ [b])%list (flushed out).

Definition stdout_flush (out : stdout) : stdout :=
  mkStdout [] (flushed out ++ buffered out)%list.

Section Messages.
Context {L : Libs}.

(** [u.strftime(time_extracted.astimezone(pytz.utc))] *)
Definition time_extracted_as_utc (time_extracted : pyval) : result pyval :=
  match time_extracted with
  | PDatetime t => Ok (PStr (utils_strftime (astimezone_utc t)))
  | _ => Raise AttributeError
  end.

(** [asdict] of the five classes. *)
Definition asdict (m : Message) : result py_dict :=
  match m with
  | RECORD stream record version time_extracted =>
      let result := [(PStr "type", PStr "RECORD");
                     (PStr "stream", stream);
                     (PStr "record", record)] in
      let result :=
        if negb (is_None version) then dict_set "version" version result else result in
      if truthy time_extracted then
        (s <- time_extracted_as_utc time_extracted ;;
         Ok (dict_set "time_extracted" s result))%result
      else Ok result
  | SCHEMA stream schema key_properties bookmark_properties =>
      let result := [(PStr "type", PStr "SCHEMA");
                     (PStr "stream", stream);
                     (PStr "schema", schema);
                     (PStr "key_properties", key_properties)] in
      if truthy bookmark_properties then
        Ok (dict_set "bookmark_properties" bookmark_properties result)
      else Ok result
  | STATE value =>
      Ok [(PStr "type", PStr "STATE"); (PStr "value", value)]
  | ACTIVATE_VERSION stream version =>
      Ok [(PStr "type", PStr "ACTIVATE_VERSION");
          (PStr "stream", stream);
          (PStr "version", version)]
  | BATCH stream filepath format compression batch_size time_extracted =>
      let result := [(PStr "type", PStr "BATCH");
                     (PStr "stream", stream);
                     (PStr "filepath", filepath);
                     (PStr "format", format)] in
      let result :=
        if negb (is_None compression) then dict_set "compression" compression result else result in
      let result :=
        if negb (is_None batch_size) then dict_set "batch_size" batch_size result else result in
      if truthy time_extracted then
        (s <- time_extracted_as_utc time_extracted ;;
         Ok (dict_set "time_extracted" s result))%result
      else Ok result
  end.

(** [Message.__eq__] compares the two [asdict()]; here: both are defined and
    are the same mapping. *)
Definition same_asdict (m1 m2 : Message) : Prop :=
  exists d, asdict m1 = Ok d /\ asdict m2 = Ok d.

(** [k in msg] and [msg[k]] of [_required_key], on the values [orjson.loads]
    returns. *)
Definition py_contains (k : string) (msg : pyval) : result bool :=
  match msg with
  | PDict d => Ok (dict_contains k d)
  | PList l | PTuple l => Ok (existsb (is_key k) l)
  | PStr s => Ok (match String.index 0 k s with Some _ => true | None => false end)
  | _ => Raise TypeError
  end.

Definition py_getitem (k : string) (msg : pyval) : result pyval :=
  match msg with
  | PDict d =>
      match dict_lookup k d with
      | Some v => Ok v
      | None => Raise (KeyError (PStr k))
      end
  | _ => Raise TypeError
  end.

(** [f"Message is missing required key '{k}': {msg}"] *)
Definition missing_required_key (k : string) (msg : pyval) : message :=
  [Lit "Message is missing required key '"; Fmt (PStr k); Lit "': "; Fmt msg].

(** [_required_key] *)
Definition _required_key (msg : pyval) (k : string) : result pyval :=
  (present <- py_contains k msg ;;
   if negb present then Raise (Exception_ (missing_required_key k msg))
   else py_getitem k msg)%result.

(** [obj.get(k)] *)
Definition py_get (obj : pyval) (k : string) : result pyval :=
  match obj with
  | PDict d => Ok (dict_get k d)
  | _ => Raise AttributeError
  end.

(** [msg_type == 'RECORD'] and the like *)
Definition py_eq_str (v : pyval) (s : string) : bool := is_key s v.

(** The [time_extracted] of a RECORD or BATCH object: a true value goes
    through [ciso8601], and when that raises, a warning is logged and the
    value is [None]. *)
Definition parse_time_extracted (warning : string) (obj : pyval) (log : logger)
  : result pyval * logger :=
  match py_get obj "time_extracted" with
  | Raise e => (Raise e, log)
  | Ok time_extracted =>
      if truthy time_extracted then
        match ciso8601_parse_datetime time_extracted with
        | Some t => (Ok (PDatetime t), log)
        | None => (Ok PNone, LOGGER_warning warning log)
        end
      else (Ok time_extracted, log)
  end.

(** The body of [parse_message] after [orjson.loads]. *)
Definition parse_object (obj : pyval) (log : logger)
  : result (option Message) * logger :=
  match _required_key obj "type" with
  | Raise e => (Raise e, log)
  | Ok msg_type =>
      if py_eq_str msg_type "RECORD" then
        match parse_time_extracted
                "unable to parse time_extracted with ciso8601 library" obj log with
        | (Raise e, log') => (Raise e, log')
        | (Ok time_extracted, log') =>
            ((stream <- _required_key obj "stream" ;;
              record <- _required_key obj "record" ;;
              version <- py_get obj "version" ;;
              m <- RecordMessage stream record version time_extracted ;;
              Ok (Some m))%result, log')
        end
      else if py_eq_str msg_type "SCHEMA" then
        ((stream <- _required_key obj "stream" ;;
          schema <- _required_key obj "schema" ;;
          key_properties <- _required_key obj "key_properties" ;;
          bookmark_properties <- py_get obj "bookmark_properties" ;;
          m <- SchemaMessage stream schema key_properties bookmark_properties ;;
          Ok (Some m))%result, log)
      else if py_eq_str msg_type "STATE" then
        ((value <- _required_key obj "value" ;;
          m <- StateMessage value ;;
          Ok (Some m))%result, log)
      else if py_eq_str msg_type "ACTIVATE_VERSION" then
        ((stream <- _required_key obj "stream" ;;
          version <- _required_key obj "version" ;;
          m <- ActivateVersionMessage stream version ;;
          Ok (Some m))%result, log)
      else if py_eq_str msg_type "BATCH" then
        match parse_time_extracted
                "Unable to parse time_extracted with ciso8601 library" obj log with
        | (Raise e, log') => (Raise e, log')
        | (Ok time_extracted, log') =>
            ((stream <- _required_key obj "stream" ;;
              filepath <- _required_key obj "filepath" ;;
              file_format <- _required_key obj "format" ;;
              compression <- py_get obj "compression" ;;
              batch_size <- py_get obj "batch_size" ;;
              m <- BatchMessage stream filepath file_format compression
                                batch_size time_extracted ;;
              Ok (Some m))%result, log')
        end
      else (Ok None, log)
  end.

(** [parse_message]: the message of a line, [None] for a type that is not
    known, with the warnings logged on the way. *)
Definition parse_message (msg : encoded) (log : logger)
  : result (option Message) * logger :=
  parse_object (orjson_loads msg) log.

(** [orjson.dumps] on a value: [fuel] is how many more levels of lists and
    dicts it may enter.  Non-finite floats are written as [null]. *)
Fixpoint dumps_value (default : pyval -> result pyval) (fuel : nat) (v : pyval)
  : result json :=
  match resolve_default default DEFAULT_CALLS_LIMIT v with
  | Raise e => Raise e
  | Ok v' =>
      match v' with
      | PNone => Ok JNull
      | PBool b => Ok (JBool b)
      | PInt n =>
          if in_int64_range n then Ok (JInt n)
          else Raise (JSONEncodeError [Lit "Integer exceeds 64-bit range"])
      | PFloat f => Ok (if float_is_finite f then JFloat f else JNull)
      | PStr s => Ok (JStr s)
      | PDatetime t => Ok (JStr (orjson_datetime t))
      | PList l | PTuple l =>
          match fuel with
          | O => Raise (JSONEncodeError [Lit "Recursion limit reached"])
          | S fuel' =>
              match mapM (dumps_value default fuel') l with
              | Ok js => Ok (JArr js)
              | Raise e => Raise e
              end
          end
      | PDict d =>
          match fuel with
          | O => Raise (JSONEncodeError [Lit "Recursion limit reached"])
          | S fuel' =>
              match mapM (fun kv =>
                            match dumps_key (fst kv) with
                            | Ok k =>
                                match dumps_value default fuel' (snd kv) with
                                | Ok j => Ok (k, j)
                                | Raise e => Raise e
                                end
                            | Raise e => Raise e
                            end) d with
              | Ok fields => Ok (JObj fields)
              | Raise e => Raise e
              end
          end
      | PBytes _ | PDecimal _ =>
          Raise (JSONEncodeError [Lit "Type is not JSON serializable"])
      end
  end.

(** [orjson.dumps(v, option=option, default=default)] *)
Definition orjson_dumps (v : pyval) (option : Z) (default : pyval -> result pyval)
  : result encoded :=
  (j <- dumps_value default orjson_recursion_limit v ;;
   Ok (mkEncoded j (Z.testbit option 10)))%result.

(** The [default] of [format_message]:
    [int(obj) if float(obj).is_integer() else float(obj)] for a Decimal,
    [TypeError] for anything else. *)
Definition default (obj : pyval) : result pyval :=
  match obj with
  | PDecimal d =>
      match float_of_decimal d with
      | Some f =>
          if float_is_integer f then
            match int_of_decimal d with
            | Some n => Ok (PInt n)
            | None => Raise (ValueError [Lit "cannot convert to integer"])
            end
          else Ok (PFloat f)
      | None => Raise (ValueError [Lit "cannot convert signaling NaN to float"])
      end
  | _ => Raise TypeError
  end.

(** [format_message] *)
Definition format_message (message : Message) (option : Z) : result encoded :=
  (d <- asdict message ;;
   orjson_dumps (PDict d) option default)%result.

(** [write_message]: one write of the line, then a flush. *)
Definition write_message (message : Message) (out : stdout)
  : result unit * stdout :=
  match format_message message OPT_APPEND_NEWLINE with
  | Ok line => (Ok tt, stdout_flush (stdout_write line out))
  | Raise e => (Raise e, out)
  end.

(** [write_record] *)
Definition write_record (stream_name record stream_alias time_extracted : pyval)
    (out : stdout) : result unit * stdout :=
  match RecordMessage (py_or stream_alias stream_name) record PNone time_extracted with
  | Ok m => write_message m out
  | Raise e => (Raise e, out)
  end.

(** The message [write_schema] builds, before it writes it. *)
Definition write_schema_message
    (stream_name schema key_properties bookmark_properties stream_alias : pyval)
  : result Message :=
  let key_properties :=
    if is_str_or_bytes key_properties then PList [key_properties]
    else key_properties in
  if negb (is_list key_properties) then
    Raise (Exception_ [Lit "key_properties must be a string or list of strings"])
  else
    SchemaMessage (py_or stream_alias stream_name) schema key_properties
                  bookmark_properties.

(** [write_schema] *)
Definition write_schema
    (stream_name schema key_properties bookmark_properties stream_alias : pyval)
    (out : stdout) : result unit * stdout :=
  match write_schema_message stream_name schema key_properties
                             bookmark_properties stream_alias with
  | Ok m => write_message m out
  | Raise e => (Raise e, out)
  end.

(** [write_state] *)
Definition write_state (value : pyval) (out : stdout) : result unit * stdout :=
  match StateMessage value with
  | Ok m => write_message m out
  | Raise e => (Raise e, out)
  end.

(** [write_version] *)
Definition write_version (stream_name version : pyval) (out : stdout)
  : result unit * stdout :=
  match ActivateVersionMessage stream_name version with
  | Ok m => write_message m out
  | Raise e => (Raise e, out)
  end.


(** The contract between [singer.utils.strftime] and [ciso8601] for one
    timestamp: its UTC text is not empty, and is read back as an aware
    timestamp with the same UTC text. *)
Definition timestamp_round_trips (t : datetime) : Prop :=
  let s := utils_strftime (astimezone_utc t) in
  s <> ""
  /\ exists t', ciso8601_parse_datetime (PStr s) = Some t'
                /\ tzinfo t' <> None
                /\ utils_strftime (astimezone_utc t') = s.

End Messages.

(** * Properties *)

(** The attributes of a message the claims name. *)
Definition key_properties_of (m : Message) : pyval :=
  match m with SCHEMA _ _ key_properties _ => key_properties | _ => PNone end.

Definition format_of (m : Message) : pyval :=
  match m with BATCH _ _ format _ _ _ => format | _ => PNone end.

Definition time_extracted_of (m : Message) : pyval :=
  match m with
  | RECORD _ _ _ time_extracted | BATCH _ _ _ _ _ time_extracted => time_extracted
  | _ => PNone
  end.


(** The type tags [parse_message] knows. *)
Definition known_types : list string :=
  ["RECORD"; "SCHEMA"; "STATE"; "ACTIVATE_VERSION"; "BATCH"].

(** The keys [parse_message] reads with [_required_key] for a type, in the
    order it reads them. *)
Definition required_keys (msg_type : string) : list string :=
  if (msg_type =? "RECORD")%string then ["stream"; "record"]
  else if (msg_type =? "SCHEMA")%string then ["stream"; "schema"; "key_properties"]
  else if (msg_type =? "STATE")%string then ["value"]
  else if (msg_type =? "ACTIVATE_VERSION")%string then ["stream"; "version"]
  else if (msg_type =? "BATCH")%string then ["stream"; "filepath"; "format"]
  else [].

(** The keys of the dict are strings, each written once. *)
Fixpoint distinct_str_keys (d : py_dict) : bool :=
  match d with
  | [] => true
  | (PStr k, _) :: d' => negb (dict_contains k d') && distinct_str_keys d'
  | _ => false
  end.

(** The values JSON has, as [orjson] writes and reads them: [None], bools,
    integers of 64 bits, finite floats, strings, lists, and dicts with
    string keys; nested no deeper than [fuel]. *)
Fixpoint json_native (fuel : nat) (v : pyval) : bool :=
  match v with
  | PNone | PBool _ | PStr _ => true
  | PInt n => in_int64_range n
  | PFloat f => float_is_finite f
  | PList l =>
      match fuel with
      | O => false
      | S fuel' => forallb (json_native fuel') l
      end
  | PDict d =>
      match fuel with
      | O => false
      | S fuel' =>
          distinct_str_keys d && forallb (fun kv => json_native fuel' (snd kv)) d
      end
  | _ => false
  end.

(** A message one of the five constructors returns. *)
Definition constructible (m : Message) : Prop :=
  (exists stream record version time_extracted,
      RecordMessage stream record version time_extracted = Ok m)
  \/ (exists stream schema key_properties bookmark_properties,
         SchemaMessage stream schema key_properties bookmark_properties = Ok m)
  \/ (exists value, StateMessage value = Ok m)
  \/ (exists stream version, ActivateVersionMessage stream version = Ok m)
  \/ (exists stream filepath file_format compression batch_size time_extracted,
         BatchMessage stream filepath file_format compression batch_size
                      time_extracted = Ok m).

(** An item of a dict whose key is a string. *)
Definition str_item (kv : string * pyval) : pyval * pyval :=
  (PStr (fst kv), snd kv).

(** Concrete inputs. *)

Definition users_record : pyval :=
  PDict [(PStr "id", PInt 1); (PStr "name", PStr "Mary")].

(** 2020-02-29 23:30:05.000120 at UTC-02:00. *)
Definition extracted_at : datetime :=
  mkDatetime 2020 2 29 23 30 5 120 (Some (-120)).

(** The line of a JSON object. *)
Definition line_of (fields : list (string * json)) : encoded :=
  mkEncoded (JObj fields) true.

(** 10.00000000000000000001 *)
Definition ten_and_a_bit : decimal := DFin false 1000000000000000000001 (-20).

Section Properties.
Context {L : Libs}.

(** ** Lookups in the parsed object *)

Lemma is_key_false (k : string) (v : pyval) :
  v <> PStr k -> is_key k v = false.
Proof.
  destruct v; simpl; try reflexivity.
  intros H. destruct (String.eqb_spec s k); [subst; congruence | reflexivity].
Qed.

Lemma is_key_true (k : string) (v : pyval) :
  is_key k v = true -> v = PStr k.
Proof.
  destruct v; simpl; try discriminate.
  intros H. apply String.eqb_eq in H. now subst.
Qed.

Lemma required_key_present (d : py_dict) (k : string) (v : pyval) :
  dict_lookup k d = Some v -> _required_key (PDict d) k = Ok v.
Proof.
  intros H. unfold _required_key, py_contains, dict_contains, py_getitem.
  simpl. now rewrite H.
Qed.

Lemma required_key_missing (d : py_dict) (k : string) :
  dict_lookup k d = None ->
  _required_key (PDict d) k = Raise (Exception_ (missing_required_key k (PDict d))).
Proof.
  intros H. unfold _required_key, py_contains, dict_contains.
  simpl. now rewrite H.
Qed.

Lemma parse_time_extracted_dict (w : string) (d : py_dict) (log : logger) :
  exists v log', parse_time_extracted w (PDict d) log = (Ok v, log').
Proof.
  unfold parse_time_extracted. simpl.
  destruct (truthy _); [destruct (ciso8601_parse_datetime _) |]; eauto.
Qed.

(** ** C1: the constructor of SCHEMA and [key_properties] *)

(** C1 (as amended): [SchemaMessage.__init__] never looks at
    [key_properties].  With a bare string for it and no bookmark properties
    the construction succeeds and the message keeps the string; for any
    arguments, a message that is constructed has the [key_properties] it was
    given, and a failure is the one about [bookmark_properties], the same
    whatever [key_properties] is. *)
Theorem SchemaMessage_keeps_key_properties :
  forall stream schema key_properties bookmark_properties : pyval,
    (forall s, SchemaMessage stream schema (PStr s) PNone
               = Ok (SCHEMA stream schema (PStr s) PNone))
    /\ match SchemaMessage stream schema key_properties bookmark_properties with
       | Ok m => key_properties_of m = key_properties
       | Raise e =>
           e = Exception_ [Lit "bookmark_properties must be a string or list of strings"]
           /\ forall key_properties',
               SchemaMessage stream schema key_properties' bookmark_properties = Raise e
       end.
Proof.
  intros stream schema kp bp. split; [reflexivity |].
  unfold SchemaMessage.
  destruct (truthy _ && negb _); simpl; auto.
Qed.

(** ** C4: a type that is not known *)

(** C4: when the object has a [type] that is none of the five known tags,
    [parse_message] returns [None], raises nothing and logs nothing. *)
Theorem parse_message_unknown_type :
  forall (msg : encoded) (d : py_dict) (msg_type : pyval) (log : logger),
    orjson_loads msg = PDict d ->
    dict_lookup "type" d = Some msg_type ->
    ~ In msg_type (map PStr known_types) ->
    parse_message msg log = (Ok None, log).
Proof.
  intros msg d msg_type log Hobj Htype Hunknown.
  unfold parse_message, parse_object. rewrite Hobj.
  rewrite (required_key_present _ _ _ Htype).
  unfold py_eq_str.
  rewrite !is_key_false; [reflexivity | | | | |];
    intros ->; apply Hunknown; simpl; tauto.
Qed.

(** ** C5: naive timestamps *)


(** ** C7: absent optional fields *)

Lemma dict_contains_set_other (k k' : string) (v : pyval) (d : py_dict) :
  k <> k' -> dict_contains k (dict_set k' v d) = dict_contains k d.
Proof.
  intros Hne. unfold dict_contains.
  induction d as [| [key v0] d IH]; simpl.
  - destruct (String.eqb_spec k' k); [congruence | reflexivity].
  - destruct (is_key k' key) eqn:Hk'; simpl.
    + apply is_key_true in Hk'. subst key. simpl.
      destruct (String.eqb_spec k' k); [congruence | reflexivity].
    + destruct (is_key k key); [reflexivity | exact IH].
Qed.

(** C7: in the mapping [asdict] returns, the key of an optional field that is
    absent ([None]) does not appear: [version] and [time_extracted] of a
    RECORD, [bookmark_properties] of a SCHEMA, [compression], [batch_size]
    and [time_extracted] of a BATCH. *)
Theorem asdict_omits_absent_fields :
  forall (m : Message) (d : py_dict),
    asdict m = Ok d ->
    match m with
    | RECORD _ _ version time_extracted =>
        (version = PNone -> dict_contains "version" d = false)
        /\ (time_extracted = PNone -> dict_contains "time_extracted" d = false)
    | SCHEMA _ _ _ bookmark_properties =>
        bookmark_properties = PNone -> dict_contains "bookmark_properties" d = false
    | BATCH _ _ _ compression batch_size time_extracted =>
        (compression = PNone -> dict_contains "compression" d = false)
        /\ (batch_size = PNone -> dict_contains "batch_size" d = false)
        /\ (time_extracted = PNone -> dict_contains "time_extracted" d = false)
    | _ => True
    end.
Proof.
  intros m d H.
  destruct m as [stream record version te | stream schema kp bp | value
                | stream version | stream filepath fmt compression batch_size te];
    simpl in H; try exact I.
  - split; intros ->; simpl in H.
    + destruct (truthy te).
      * destruct (time_extracted_as_utc te); simpl in H; [| discriminate].
        injection H as <-. reflexivity.
      * injection H as <-. reflexivity.
    + injection H as <-.
      destruct (is_None version); reflexivity.
  - intros ->. simpl in H. injection H as <-. reflexivity.
  - repeat split; intros ->; simpl in H.
    + destruct (truthy te).
      * destruct (time_extracted_as_utc te); simpl in H; [| discriminate].
        injection H as <-.
        rewrite dict_contains_set_other by discriminate.
        destruct (is_None batch_size); reflexivity.
      * injection H as <-. destruct (is_None batch_size); reflexivity.
    + destruct (truthy te).
      * destruct (time_extracted_as_utc te); simpl in H; [| discriminate].
        injection H as <-.
        rewrite dict_contains_set_other by discriminate.
        destruct (is_None compression); reflexivity.
      * injection H as <-. destruct (is_None compression); reflexivity.
    + injection H as <-.
      destruct (is_None compression), (is_None batch_size); reflexivity.
Qed.

(** ** C9: [write_schema] and [key_properties] *)

(** C9: [write_schema] turns a [str] or [bytes] given as [key_properties]
    into the list of it before it constructs the message, and raises for any
    other value that is no list, writing nothing; so the message it
    constructs, and the one a successful call has written, has a list as
    [key_properties]. *)
Theorem write_schema_key_properties :
  forall (stream_name schema key_properties bookmark_properties stream_alias : pyval)
         (out : stdout),
    (is_str_or_bytes key_properties = true ->
     write_schema_message stream_name schema key_properties bookmark_properties
                          stream_alias
     = SchemaMessage (py_or stream_alias stream_name) schema
                     (PList [key_properties]) bookmark_properties)
    /\ (is_str_or_bytes key_properties = false -> is_list key_properties = false ->
        write_schema stream_name schema key_properties bookmark_properties
                     stream_alias out
        = (Raise (Exception_ [Lit "key_properties must be a string or list of strings"]),
           out))
    /\ (forall m,
          write_schema_message stream_name schema key_properties
                               bookmark_properties stream_alias = Ok m ->
          is_list (key_properties_of m) = true)
    /\ (forall out',
          write_schema stream_name schema key_properties bookmark_properties
                       stream_alias out = (Ok tt, out') ->
          exists m line,
            write_schema_message stream_name schema key_properties
                                 bookmark_properties stream_alias = Ok m
            /\ is_list (key_properties_of m) = true
            /\ format_message m OPT_APPEND_NEWLINE = Ok line
            /\ out' = stdout_flush (stdout_write line out)).
Proof.
  intros stream_name schema kp bp stream_alias out.
  assert (Hlist : forall m,
             write_schema_message stream_name schema kp bp stream_alias = Ok m ->
             is_list (key_properties_of m) = true).
  { intros m. unfold write_schema_message.
    destruct (is_list (if is_str_or_bytes kp then PList [kp] else kp)) eqn:Hl;
      simpl; [| discriminate].
    unfold SchemaMessage.
    destruct (truthy _ && negb _); [discriminate |].
    intros H. injection H as <-. exact Hl. }
  repeat split.
  - intros Hs. unfold write_schema_message. now rewrite Hs.
  - intros Hs Hl. unfold write_schema, write_schema_message. now rewrite Hs, Hl.
  - exact Hlist.
  - intros out'. unfold write_schema.
    destruct (write_schema_message _ _ _ _ _) as [m | e] eqn:Hm; [| discriminate].
    unfold write_message.
    destruct (format_message m OPT_APPEND_NEWLINE) as [line | e] eqn:Hf;
      [| discriminate].
    intros H. injection H as <-.
    exists m, line. auto.
Qed.

(** ** C10: the default format of a BATCH *)

(** C10: [BatchMessage.__init__] with a false [file_format] ([None], the
    empty string, ...) gives a message whose [format] is ["jsonl"] (when
    [time_extracted] is accepted); and every message [parse_message] returns
    for a BATCH object whose [format] is the empty string has the format
    ["jsonl"], which with no [time_extracted] in the object is the message
    of the other fields. *)
Theorem BatchMessage_default_format :
  forall (stream filepath file_format compression batch_size time_extracted : pyval),
    (truthy file_format = false ->
     check_time_extracted time_extracted = Ok tt ->
     BatchMessage stream filepath file_format compression batch_size time_extracted
     = Ok (BATCH stream filepath (PStr "jsonl") compression batch_size time_extracted))
    /\ (forall (msg : encoded) (d : py_dict) (log : logger),
          orjson_loads msg = PDict d ->
          dict_lookup "type" d = Some (PStr "BATCH") ->
          dict_lookup "format" d = Some (PStr "") ->
          (forall m log', parse_message msg log = (Ok (Some m), log') ->
                          format_of m = PStr "jsonl")
          /\ (dict_lookup "stream" d = Some stream ->
              dict_lookup "filepath" d = Some filepath ->
              dict_lookup "time_extracted" d = None ->
              exists c b,
                parse_message msg log
                = (Ok (Some (BATCH stream filepath (PStr "jsonl") c b PNone)), log))).
Proof.
  intros stream filepath file_format compression batch_size te. split.
  - intros Hf Hte. unfold BatchMessage, py_or. rewrite Hte, Hf. reflexivity.
  - intros msg d log Hobj Htype Hfmt.
    unfold parse_message, parse_object. rewrite Hobj.
    rewrite (required_key_present _ _ _ Htype). simpl.
    split.
    + intros m log'.
      destruct (parse_time_extracted _ _ _) as [[te' | e] log1]; [| discriminate].
      destruct (_required_key (PDict d) "stream") as [s |]; simpl; [| discriminate].
      destruct (_required_key (PDict d) "filepath") as [f |]; simpl; [| discriminate].
      rewrite (required_key_present _ _ _ Hfmt). simpl.
      unfold BatchMessage.
      destruct (check_time_extracted te'); simpl; [| discriminate].
      intros H. injection H as <- _. reflexivity.
    + intros Hs Hp Hte.
      unfold parse_time_extracted, py_get, dict_get. rewrite Hte. simpl.
      rewrite (required_key_present _ _ _ Hs), (required_key_present _ _ _ Hp),
        (required_key_present _ _ _ Hfmt). simpl.
      eauto.
Qed.

(** ** C8: a required key is missing *)

(** Reads the key [k] of the object [d] in the goal: present or missing. *)
Ltac read_key d k :=
  let v := fresh "v" in
  let H := fresh "H" in
  destruct (dict_lookup k d) as [v |] eqn:H;
  [ rewrite (required_key_present d k v H)
  | rewrite (required_key_missing d k H) ];
  simpl.

(** Closes the goal after the first missing key was read. *)
Ltac missing_found :=
  do 2 eexists; split; [reflexivity |];
  split;
  [ simpl; unfold dict_contains;
    repeat match goal with
           | H : dict_lookup _ _ = _ |- _ => rewrite H
           end;
    reflexivity
  | split; [simpl; tauto | assumption] ].

(** C8: on a JSON object with no [type], [parse_message] raises the
    exception of [_required_key] for [type]; on an object of a known type in
    which a required key is missing, it raises that exception for a required
    key that is missing: the first one in the order it reads them.  The
    message of the exception names the key and shows the object. *)
Theorem parse_message_missing_required_key :
  forall (msg : encoded) (d : py_dict) (log : logger),
    orjson_loads msg = PDict d ->
    (dict_lookup "type" d = None ->
     parse_message msg log
     = (Raise (Exception_ (missing_required_key "type" (PDict d))), log))
    /\ (forall (msg_type k : string),
          dict_lookup "type" d = Some (PStr msg_type) ->
          In k (required_keys msg_type) ->
          dict_lookup k d = None ->
          exists k' log',
            parse_message msg log
            = (Raise (Exception_ (missing_required_key k' (PDict d))), log')
            /\ find (fun k0 => negb (dict_contains k0 d)) (required_keys msg_type)
               = Some k'
            /\ In k' (required_keys msg_type)
            /\ dict_lookup k' d = None).
Proof.
  intros msg d log Hobj. unfold parse_message, parse_object. rewrite Hobj.
  split.
  - intros Htype. now rewrite (required_key_missing _ _ Htype).
  - intros msg_type k Htype Hin Hk.
    rewrite (required_key_present _ _ _ Htype).
    unfold required_keys in *.
    destruct (String.eqb_spec msg_type "RECORD") as [-> | _].
    { simpl.
      destruct (parse_time_extracted_dict
                  "unable to parse time_extracted with ciso8601 library" d log)
        as (te & log' & ->).
      read_key d "stream"; [| missing_found].
      read_key d "record"; [| missing_found].
      simpl in Hin. destruct Hin as [<- | [<- | []]]; congruence. }
    destruct (String.eqb_spec msg_type "SCHEMA") as [-> | _].
    { simpl.
      read_key d "stream"; [| missing_found].
      read_key d "schema"; [| missing_found].
      read_key d "key_properties"; [| missing_found].
      simpl in Hin. destruct Hin as [<- | [<- | [<- | []]]]; congruence. }
    destruct (String.eqb_spec msg_type "STATE") as [-> | _].
    { simpl.
      read_key d "value"; [| missing_found].
      simpl in Hin. destruct Hin as [<- | []]; congruence. }
    destruct (String.eqb_spec msg_type "ACTIVATE_VERSION") as [-> | _].
    { simpl.
      read_key d "stream"; [| missing_found].
      read_key d "version"; [| missing_found].
      simpl in Hin. destruct Hin as [<- | [<- | []]]; congruence. }
    destruct (String.eqb_spec msg_type "BATCH") as [-> | _].
    { simpl.
      destruct (parse_time_extracted_dict
                  "Unable to parse time_extracted with ciso8601 library" d log)
        as (te & log' & ->).
      read_key d "stream"; [| missing_found].
      read_key d "filepath"; [| missing_found].
      read_key d "format"; [| missing_found].
      simpl in Hin. destruct Hin as [<- | [<- | [<- | []]]]; congruence. }
    destruct Hin.
Qed.

(** ** C3: a [time_extracted] that cannot be parsed *)


(** ** C6: decimals in a payload *)

Lemma floor_log2_ratio_nonneg (p q : Z) :
  0 < q -> q <= p -> 0 <= floor_log2_ratio p q.
Proof.
  intros Hq Hp. unfold floor_log2_ratio.
  assert (Hle : Z.log2 q <= Z.log2 p) by (apply Z.log2_le_mono; lia).
  destruct (Z.eq_dec (Z.log2 p - Z.log2 q) 0) as [H0 | Hne].
  - rewrite H0. simpl. rewrite Z.mul_1_r.
    destruct (Z.ltb_spec p q); lia.
  - destruct (0 <=? Z.log2 p - Z.log2 q) eqn:E; [| lia].
    destruct (p <? _); lia.
Qed.

Lemma floor_log2_ratio_le (p q : Z) :
  floor_log2_ratio p q <= Z.log2 p - Z.log2 q.
Proof.
  unfold floor_log2_ratio.
  destruct (if 0 <=? _ then _ else _); lia.
Qed.

Lemma div_half_even_exact (a q : Z) :
  0 < q -> div_half_even (a * q) q = a.
Proof.
  intros Hq. unfold div_half_even.
  rewrite Z.div_mul by lia. rewrite Z.mod_mul by lia.
  destruct q; [lia | reflexivity | lia].
Qed.

Lemma div_half_even_nonneg (n d : Z) :
  0 <= n -> 0 < d -> 0 <= div_half_even n d.
Proof.
  intros Hn Hd. unfold div_half_even.
  assert (0 <= n / d) by (apply Z.div_pos; lia).
  destruct (2 * (n mod d) ?= d); [destruct (Z.even _) | |]; lia.
Qed.

Lemma binary64_of_integer (neg : bool) (a q : Z) :
  0 <= a -> 0 < q ->
  match binary64_of_ratio neg (a * q) q with
  | FFin s m e => s = neg /\ float_is_integer (FFin s m e) = true
  | FInf s => s = neg /\ 2 ^ 64 <= a
  | FNan => False
  end.
Proof.
  intros Ha Hq. unfold binary64_of_ratio.
  destruct (Z.eqb_spec (a * q) 0) as [H0 | H0].
  { split; reflexivity. }
  assert (Hpos : 0 < a) by nia.
  pose proof (floor_log2_ratio_nonneg (a * q) q Hq ltac:(nia)) as Hfl.
  pose proof (floor_log2_ratio_le (a * q) q) as Hup.
  set (fl := floor_log2_ratio (a * q) q) in *.
  set (e := Z.max (fl - 52) (-1074)).
  assert (He : -52 <= e) by lia.
  destruct (Z.leb_spec 0 e) as [Hpe | Hne].
  - set (m := div_half_even (a * q) (q * 2 ^ e)).
    assert (Hm : 0 <= m).
    { apply div_half_even_nonneg; [nia |]. apply Z.mul_pos_pos; [lia |].
      apply Z.pow_pos_nonneg; lia. }
    destruct (Z.eqb_spec m (2 ^ 53)).
    + destruct (Z.ltb_spec 971 (e + 1)).
      * split; [reflexivity |].
        assert (Z.log2 (a * q) <= Z.log2 a + Z.log2 q + 1)
          by (apply Z.log2_mul_above; lia).
        destruct (Z.lt_ge_cases a (2 ^ 64)) as [Hlt | Hge]; [| exact Hge].
        apply Z.log2_lt_pow2 in Hlt; lia.
      * split; [reflexivity |]. simpl.
        destruct (Z.leb_spec 0 (e + 1)); [reflexivity | lia].
    + destruct (Z.ltb_spec 971 e).
      * split; [reflexivity |].
        assert (Z.log2 (a * q) <= Z.log2 a + Z.log2 q + 1)
          by (apply Z.log2_mul_above; lia).
        destruct (Z.lt_ge_cases a (2 ^ 64)) as [Hlt | Hge]; [| exact Hge].
        apply Z.log2_lt_pow2 in Hlt; lia.
      * split; [reflexivity |]. simpl.
        destruct (Z.leb_spec 0 e); [reflexivity | lia].
  - replace (a * q * 2 ^ (- e)) with (a * 2 ^ (- e) * q) by ring.
    rewrite div_half_even_exact by lia.
    assert (Hp2 : 0 < 2 ^ (- e)) by (apply Z.pow_pos_nonneg; lia).
    destruct (Z.eqb_spec (a * 2 ^ (- e)) (2 ^ 53)) as [E53 | N53].
    + destruct (Z.ltb_spec 971 (e + 1)); [lia |].
      split; [reflexivity |]. unfold float_is_integer.
      destruct (Z.leb_spec 0 (e + 1)); [reflexivity |].
      rewrite Z2N.id by (apply Z.pow_nonneg; lia).
      replace (2 ^ 52) with (2 ^ (52 - (- (e + 1))) * 2 ^ (- (e + 1))).
      * rewrite Z.mod_mul; [reflexivity |].
        apply Z.pow_nonzero; lia.
      * rewrite <- Z.pow_add_r by lia. f_equal. lia.
    + destruct (Z.ltb_spec 971 e); [lia |].
      split; [reflexivity |]. unfold float_is_integer.
      destruct (Z.leb_spec 0 e); [lia |].
      rewrite Z2N.id by nia.
      rewrite Z.mod_mul by lia. reflexivity.
Qed.

Lemma resolve_default_native (dflt : pyval -> result pyval) (n : nat) (v : pyval) :
  natively_supported v = true -> resolve_default dflt n v = Ok v.
Proof. intros H. destruct n; simpl; now rewrite H. Qed.

Lemma resolve_default_step (dflt : pyval -> result pyval) (n : nat) (v : pyval) :
  natively_supported v = false ->
  resolve_default dflt (S n) v
  = match dflt v with
    | Ok v' => resolve_default dflt n v'
    | Raise _ => Raise (JSONEncodeError [Lit "Type is not JSON serializable"])
    end.
Proof. intros H. simpl. now rewrite H. Qed.

Lemma dumps_value_decimal (fuel : nat) (neg : bool) (c : N) (e : Z) :
  dumps_value default fuel (PDecimal (DFin neg c e))
  = let f := float_of_finite neg c e in
    if float_is_integer f then
      if in_int64_range (decimal_trunc neg c e)
      then Ok (JInt (decimal_trunc neg c e))
      else Raise (JSONEncodeError [Lit "Integer exceeds 64-bit range"])
    else Ok (if float_is_finite f then JFloat f else JNull).
Proof.
  assert (Hd : default (PDecimal (DFin neg c e))
               = if float_is_integer (float_of_finite neg c e)
                 then Ok (PInt (decimal_trunc neg c e))
                 else Ok (PFloat (float_of_finite neg c e))) by reflexivity.
  assert (Hr : resolve_default default DEFAULT_CALLS_LIMIT (PDecimal (DFin neg c e))
               = if float_is_integer (float_of_finite neg c e)
                 then Ok (PInt (decimal_trunc neg c e))
                 else Ok (PFloat (float_of_finite neg c e))).
  { change DEFAULT_CALLS_LIMIT with (S 253).
    rewrite resolve_default_step by reflexivity. rewrite Hd.
    destruct (float_is_integer _); apply resolve_default_native; reflexivity. }
  cbv zeta.
  destruct fuel; cbn [dumps_value]; rewrite Hr;
    destruct (float_is_integer _); reflexivity.
Qed.

Lemma float_of_integral_decimal (neg : bool) (c : N) (e : Z) :
  decimal_is_integral (DFin neg c e) = true ->
  match float_of_finite neg c e with
  | FFin s m x => float_is_integer (FFin s m x) = true
  | FInf _ => 2 ^ 64 <= Z.abs (decimal_trunc neg c e)
  | FNan => False
  end.
Proof.
  unfold decimal_is_integral, float_of_finite, decimal_trunc.
  intros Hint.
  destruct (Z.leb_spec 0 e) as [He | He].
  - pose proof (binary64_of_integer neg (Z.of_N c * 10 ^ e) 1) as H.
    rewrite Z.mul_1_r in H.
    assert (0 <= Z.of_N c * 10 ^ e).
    { apply Z.mul_nonneg_nonneg; [lia | apply Z.pow_nonneg; lia]. }
    specialize (H ltac:(assumption) ltac:(lia)).
    destruct (binary64_of_ratio _ _ _); [exact H | | tauto].
    destruct neg; lia.
  - apply Z.eqb_eq in Hint.
    assert (Hq : 0 < 10 ^ (- e)) by (apply Z.pow_pos_nonneg; lia).
    pose proof (binary64_of_integer neg (Z.of_N c / 10 ^ (- e)) (10 ^ (- e))) as H.
    replace (Z.of_N c / 10 ^ (- e) * 10 ^ (- e)) with (Z.of_N c) in H.
    + assert (0 <= Z.of_N c / 10 ^ (- e)) by (apply Z.div_pos; lia).
      specialize (H ltac:(assumption) Hq).
      destruct (binary64_of_ratio _ _ _); [exact H | | tauto].
      destruct neg; lia.
    + pose proof (Z.div_mod (Z.of_N c) (10 ^ (- e))). lia.
Qed.

(** C6 (as amended): wherever [orjson.dumps] meets a finite decimal in a
    payload, [format_message] writes the JSON integer [int(d)] exactly when
    [float(d)], the binary64 nearest to the decimal, is integral and
    [int(d)] is in the 64-bit range, and the JSON float [float(d)] exactly
    when [float(d)] is finite and not integral.  So a decimal with no
    fractional part, in the 64-bit range, is written as that integer, and a
    decimal written as a float has a fractional part.  The last part is the
    same for the [value] of a STATE message as a whole. *)
Theorem format_message_decimal :
  forall (neg : bool) (c : N) (e : Z) (fuel : nat),
    let d := DFin neg c e in
    let f := float_of_finite neg c e in
    let n := decimal_trunc neg c e in
    (forall k, dumps_value default fuel (PDecimal d) = Ok (JInt k)
               <-> float_is_integer f = true /\ in_int64_range n = true /\ k = n)
    /\ (forall x, dumps_value default fuel (PDecimal d) = Ok (JFloat x)
                  <-> float_is_integer f = false /\ float_is_finite f = true /\ x = f)
    /\ (decimal_is_integral d = true -> in_int64_range n = true ->
        dumps_value default fuel (PDecimal d) = Ok (JInt n))
    /\ (float_is_integer f = false -> float_is_finite f = true ->
        decimal_is_integral d = false)
    /\ (forall option j,
          orjson_recursion_limit = S fuel ->
          dumps_value default fuel (PDecimal d) = Ok j ->
          format_message (STATE (PDecimal d)) option
          = Ok (mkEncoded (JObj [("type", JStr "STATE"); ("value", j)])
                          (Z.testbit option 10))).
Proof.
  intros neg c e fuel d f n.
  assert (Hint : decimal_is_integral d = true -> in_int64_range n = true ->
                 float_is_integer f = true).
  { intros Hi Hr. pose proof (float_of_integral_decimal neg c e Hi) as H.
    fold f in H. destruct f as [| s | s m x]; [contradiction | | exact H].
    fold n in H. unfold in_int64_range in Hr.
    apply andb_prop in Hr. destruct Hr as [Hlo Hhi].
    apply Z.leb_le in Hlo. apply Z.ltb_lt in Hhi. lia. }
  assert (Hnon : float_is_integer f = false -> float_is_finite f = true ->
                 decimal_is_integral d = false).
  { intros Hf Hfin. destruct (decimal_is_integral d) eqn:Hi; [| reflexivity].
    pose proof (float_of_integral_decimal neg c e Hi) as H.
    fold f in H. destruct f; [discriminate | discriminate | congruence]. }
  pose proof (dumps_value_decimal fuel neg c e) as Hd.
  cbv zeta in Hd. fold d f n in Hd.
  split; [| split; [| split; [| split]]].
  - intros k. rewrite Hd. split.
    + destruct (float_is_integer f);
        [| destruct (float_is_finite f); discriminate].
      destruct (in_int64_range n); [| discriminate].
      intros H. injection H as <-. auto.
    + intros (Hf & Hr & ->). rewrite Hf, Hr. reflexivity.
  - intros x. rewrite Hd. split.
    + destruct (float_is_integer f);
        [destruct (in_int64_range n); discriminate |].
      destruct (float_is_finite f); [| discriminate].
      intros H. injection H as <-. auto.
    + intros (Hf & Hfin & ->). rewrite Hf, Hfin. reflexivity.
  - intros Hi Hr. rewrite Hd, (Hint Hi Hr), Hr. reflexivity.
  - exact Hnon.
  - intros option j Hlimit Hj.
    unfold format_message, orjson_dumps. simpl bind.
    rewrite Hlimit. cbn [dumps_value].
    rewrite resolve_default_native by reflexivity.
    cbn [mapM fst snd dumps_key]. fold d. rewrite Hj.
    change DEFAULT_CALLS_LIMIT with (S 253).
    destruct fuel; cbn [dumps_value]; rewrite resolve_default_native by reflexivity;
      reflexivity.
Qed.

(** ** C2: the round trip through a line *)

Lemma dict_set_new (k : string) (v : pyval) (d : py_dict) :
  dict_contains k d = false -> dict_set k v d = (d ++ [(PStr k, v)])%list.
Proof.
  unfold dict_contains. induction d as [| [key v0] d IH]; simpl; [reflexivity |].
  destruct (is_key k key); [discriminate |].
  intros H. now rewrite IH.
Qed.

Lemma dict_contains_app (k : string) (d1 d2 : py_dict) :
  dict_contains k (d1 ++ d2)%list = dict_contains k d1 || dict_contains k d2.
Proof.
  unfold dict_contains. induction d1 as [| [key v0] d1 IH]; simpl.
  - destruct (dict_lookup k d2); reflexivity.
  - destruct (is_key k key); [reflexivity | exact IH].
Qed.


Lemma fold_dict_set (items : list (string * pyval)) (acc : py_dict) :
  distinct_str_keys (map str_item items) = true ->
  (forall kv, In kv items -> dict_contains (fst kv) acc = false) ->
  fold_left (fun d kv => dict_set (fst kv) (snd kv) d) items acc
  = (acc ++ map str_item items)%list.
Proof.
  revert acc. induction items as [| [k v] items IH]; intros acc Hd Hacc; simpl.
  - now rewrite app_nil_r.
  - simpl in Hd. apply andb_prop in Hd. destruct Hd as [Hk Hd].
    apply negb_true_iff in Hk.
    rewrite dict_set_new by (apply (Hacc (k, v)); now left).
    rewrite IH; [now rewrite <- app_assoc | exact Hd |].
    intros [k' v'] Hin. rewrite dict_contains_app.
    rewrite (Hacc (k', v')) by now right. simpl.
    unfold dict_contains. simpl.
    destruct (String.eqb_spec k k') as [-> | Hne]; [| reflexivity].
    exfalso. clear - Hk Hin.
    unfold dict_contains in Hk.
    induction items as [| [k2 v2] items IH]; [contradiction |].
    simpl in Hk, Hin.
    destruct (String.eqb_spec k2 k') as [-> | Hne].
    + discriminate.
    + destruct Hin as [Heq | Hin]; [congruence | auto].
Qed.

Lemma dumps_value_scalar (fuel : nat) (v : pyval) :
  natively_supported v = true ->
  dumps_value default fuel v
  = match v with
    | PNone => Ok JNull
    | PBool b => Ok (JBool b)
    | PInt n =>
        if in_int64_range n then Ok (JInt n)
        else Raise (JSONEncodeError [Lit "Integer exceeds 64-bit range"])
    | PFloat f => Ok (if float_is_finite f then JFloat f else JNull)
    | PStr s => Ok (JStr s)
    | PDatetime t => Ok (JStr (orjson_datetime t))
    | _ => dumps_value default fuel v
    end.
Proof.
  intros H.
  destruct v; try reflexivity;
    destruct fuel; cbn [dumps_value]; rewrite resolve_default_native by exact H;
    reflexivity.
Qed.

Lemma dumps_value_list (fuel : nat) (l : list pyval) :
  dumps_value default (S fuel) (PList l)
  = match mapM (dumps_value default fuel) l with
    | Ok js => Ok (JArr js)
    | Raise e => Raise e
    end.
Proof.
  cbn [dumps_value]. rewrite resolve_default_native by reflexivity. reflexivity.
Qed.

Lemma dumps_value_dict (fuel : nat) (d : py_dict) :
  dumps_value default (S fuel) (PDict d)
  = match mapM (fun kv =>
                  match dumps_key (fst kv) with
                  | Ok k =>
                      match dumps_value default fuel (snd kv) with
                      | Ok j => Ok (k, j)
                      | Raise e => Raise e
                      end
                  | Raise e => Raise e
                  end) d with
    | Ok fields => Ok (JObj fields)
    | Raise e => Raise e
    end.
Proof.
  cbn [dumps_value]. rewrite resolve_default_native by reflexivity. reflexivity.
Qed.

(** [orjson.loads] undoes [orjson.dumps] on the values JSON has. *)
Lemma loads_dumps_native (fuel : nat) :
  forall v, json_native fuel v = true ->
            exists j, dumps_value default fuel v = Ok j /\ loads_value j = v.
Proof.
  induction fuel as [| fuel IHf]; intros v Hv.
  - destruct v; try discriminate; rewrite dumps_value_scalar by reflexivity.
    + eauto.
    + eauto.
    + simpl in Hv. rewrite Hv. eauto.
    + simpl in Hv. rewrite Hv. eauto.
    + eauto.
  - destruct v; try discriminate;
      try (rewrite dumps_value_scalar by reflexivity).
    + eauto.
    + eauto.
    + simpl in Hv. rewrite Hv. eauto.
    + simpl in Hv. rewrite Hv. eauto.
    + eauto.
    + rewrite dumps_value_list. cbn [json_native] in Hv.
      assert (H : exists js, mapM (dumps_value default fuel) l = Ok js
                             /\ map loads_value js = l).
      { induction l as [| a l IHl]; [exists []; auto |].
        simpl in Hv. apply andb_prop in Hv. destruct Hv as [Ha Hl].
        destruct (IHf a Ha) as (j & Hj & Hja).
        destruct (IHl Hl) as (js & Hjs & Hjsl).
        exists (j :: js). simpl. rewrite Hj, Hjs. simpl. now rewrite Hja, Hjsl. }
      destruct H as (js & -> & Hjs). eexists. split; [reflexivity |].
      simpl. now rewrite Hjs.
    + rewrite dumps_value_dict. cbn [json_native] in Hv.
      apply andb_prop in Hv. destruct Hv as [Hkeys Hvals].
      assert (H : exists fields,
                 mapM (fun kv =>
                         match dumps_key (fst kv) with
                         | Ok k =>
                             match dumps_value default fuel (snd kv) with
                             | Ok j => Ok (k, j)
                             | Raise e => Raise e
                             end
                         | Raise e => Raise e
                         end) items = Ok fields
                 /\ map str_item
                        (map (fun kv => (fst kv, loads_value (snd kv))) fields)
                    = items).
      {
        induction items as [| [key v] items IHi]; [exists []; auto |].
        simpl in Hkeys, Hvals.
        destruct key; try discriminate.
        apply andb_prop in Hkeys. destruct Hkeys as [_ Hkeys].
        apply andb_prop in Hvals. destruct Hvals as [Hv Hvals].
        destruct (IHf v Hv) as (j & Hj & Hjv).
        destruct (IHi Hkeys Hvals) as (fields & Hfs & Hfields).
        exists ((s, j) :: fields). cbn [mapM fst snd dumps_key].
        rewrite Hj, Hfs. split; [reflexivity |].
        simpl. unfold str_item at 1. simpl. now rewrite Hjv, Hfields. }
      destruct H as (fields & -> & Hfields). eexists. split; [reflexivity |].
      cbn [loads_value]. f_equal.
      rewrite fold_dict_set.
      * simpl. exact Hfields.
      * rewrite Hfields. exact Hkeys.
      * intros kv _. reflexivity.
Qed.

Lemma check_time_extracted_ok (te : pyval) :
  check_time_extracted te = Ok tt ->
  truthy te = false \/ exists t o, te = PDatetime t /\ tzinfo t = Some o.
Proof.
  unfold check_time_extracted.
  destruct (truthy te) eqn:Ht; [| auto].
  destruct te; try discriminate.
  destruct (tzinfo t) as [o |] eqn:Ho; [| discriminate].
  intros _. right. eauto.
Qed.

Lemma check_time_extracted_inv (te : pyval) (r : result Message) (m : Message) :
  bind (check_time_extracted te) (fun _ => r) = Ok m ->
  check_time_extracted te = Ok tt /\ r = Ok m.
Proof.
  destruct (check_time_extracted te) as [[] |]; simpl; [auto | discriminate].
Qed.

Lemma is_None_true (v : pyval) : is_None v = true -> v = PNone.
Proof. destruct v; (reflexivity || discriminate). Qed.

Lemma truthy_str (s : string) : s <> "" -> truthy (PStr s) = true.
Proof.
  intros H. simpl. destruct (String.eqb_spec s ""); [contradiction | reflexivity].
Qed.

(** What [parse_message] makes of the line [format_message] wrote. *)
Lemma parse_format (m : Message) (d : py_dict) (option : Z) :
  asdict m = Ok d ->
  json_native orjson_recursion_limit (PDict d) = true ->
  exists line,
    format_message m option = Ok line
    /\ forall log, parse_message line log = parse_object (PDict d) log.
Proof.
  intros Hd Hn. destruct (loads_dumps_native _ _ Hn) as (j & Hj & Hl).
  exists (mkEncoded j (Z.testbit option 10)). split.
  - unfold format_message, orjson_dumps. rewrite Hd. simpl. now rewrite Hj.
  - intros log. unfold parse_message, orjson_loads. simpl. now rewrite Hl.
Qed.

Lemma record_round_trip (stream record version te : pyval) (d : py_dict) :
  check_time_extracted te = Ok tt ->
  asdict (RECORD stream record version te) = Ok d ->
  (forall t, te = PDatetime t -> timestamp_round_trips t) ->
  exists m', (forall log, parse_object (PDict d) log = (Ok (Some m'), log))
             /\ asdict m' = Ok d.
Proof.
  intros Hc Hd Hts.
  apply check_time_extracted_ok in Hc.
  destruct Hc as [Hf | (t & o & -> & Ho)].
  - simpl in Hd. rewrite Hf in Hd. injection Hd as <-.
    exists (RECORD stream record version PNone). split.
    + intros log. destruct (is_None version) eqn:Hv.
      * apply is_None_true in Hv. subst. reflexivity.
      * simpl. unfold parse_object. cbn. reflexivity.
    + reflexivity.
  - destruct (Hts t eq_refl) as (Hne & t' & Hp & Htz & Hs).
    simpl in Hd. injection Hd as <-.
    set (s := utils_strftime (astimezone_utc t)) in *.
    pose proof (truthy_str s Hne) as Htr.
    destruct (tzinfo t') as [o' |] eqn:Ho'; [| congruence].
    exists (RECORD stream record version (PDatetime t')). split.
    + intros log. destruct (is_None version) eqn:Hv.
      * apply is_None_true in Hv. subst version.
        unfold parse_object. cbn -[truthy].
        rewrite Htr, Hp. unfold RecordMessage, check_time_extracted.
        cbn -[tzinfo]. rewrite Ho'. reflexivity.
      * unfold parse_object. cbn -[truthy].
        rewrite Htr, Hp. unfold RecordMessage, check_time_extracted.
        cbn -[tzinfo]. rewrite Ho'. reflexivity.
    + simpl. now rewrite Hs.
Qed.

Lemma schema_round_trip (stream schema kp bp : pyval) (m : Message) (d : py_dict) :
  SchemaMessage stream schema kp bp = Ok m ->
  asdict m = Ok d ->
  exists m', (forall log, parse_object (PDict d) log = (Ok (Some m'), log))
             /\ asdict m' = Ok d.
Proof.
  unfold SchemaMessage.
  set (bp' := if is_str_or_bytes bp then PList [bp] else bp).
  destruct (truthy bp') eqn:Ht; simpl.
  - destruct (is_list bp') eqn:Hl; simpl; [| discriminate].
    intros Hm Hd. injection Hm as <-. simpl in Hd. rewrite Ht in Hd.
    injection Hd as <-.
    destruct bp'; try discriminate.
    exists (SCHEMA stream schema kp (PList l)). split.
    + intros log. unfold parse_object. cbn -[truthy].
      unfold SchemaMessage. cbn -[truthy]. rewrite Ht. reflexivity.
    + cbn -[truthy]. now rewrite Ht.
  - intros Hm Hd. injection Hm as <-. simpl in Hd. rewrite Ht in Hd.
    injection Hd as <-.
    exists (SCHEMA stream schema kp PNone). split; reflexivity.
Qed.

Lemma py_or_truthy (x y : pyval) :
  truthy y = true -> truthy (py_or x y) = true.
Proof. unfold py_or. destruct (truthy x) eqn:H; auto. Qed.

Lemma batch_round_trip
    (stream filepath fmt compression batch_size te : pyval) (d : py_dict) :
  truthy fmt = true ->
  check_time_extracted te = Ok tt ->
  asdict (BATCH stream filepath fmt compression batch_size te) = Ok d ->
  (forall t, te = PDatetime t -> timestamp_round_trips t) ->
  exists m', (forall log, parse_object (PDict d) log = (Ok (Some m'), log))
             /\ asdict m' = Ok d.
Proof.
  intros Hfmt Hc Hd Hts.
  apply check_time_extracted_ok in Hc.
  destruct Hc as [Hf | (t & o & -> & Ho)].
  - simpl in Hd. rewrite Hf in Hd. injection Hd as <-.
    exists (BATCH stream filepath fmt compression batch_size PNone). split.
    + intros log.
      destruct (is_None compression) eqn:Hcmp;
        [apply is_None_true in Hcmp; subst compression |];
        (destruct (is_None batch_size) eqn:Hbs;
         [apply is_None_true in Hbs; subst batch_size |]);
        unfold parse_object; cbn -[truthy py_or BatchMessage];
        unfold BatchMessage, py_or; rewrite Hfmt; reflexivity.
    + reflexivity.
  - destruct (Hts t eq_refl) as (Hne & t' & Hp & Htz & Hs).
    simpl in Hd. injection Hd as <-.
    set (s := utils_strftime (astimezone_utc t)) in *.
    pose proof (truthy_str s Hne) as Htr.
    destruct (tzinfo t') as [o' |] eqn:Ho'; [| congruence].
    exists (BATCH stream filepath fmt compression batch_size (PDatetime t')). split.
    + intros log.
      destruct (is_None compression) eqn:Hcmp;
        [apply is_None_true in Hcmp; subst compression |];
        (destruct (is_None batch_size) eqn:Hbs;
         [apply is_None_true in Hbs; subst batch_size |]);
        unfold parse_object; cbn -[truthy py_or BatchMessage];
        rewrite Htr, Hp; cbn -[truthy py_or BatchMessage];
        unfold BatchMessage, check_time_extracted, py_or;
        rewrite Hfmt; cbn -[tzinfo]; rewrite Ho'; reflexivity.
    + simpl. now rewrite Hs.
Qed.

(** C2 (as amended): for every message [m] a constructor returns whose
    canonical mapping holds only values JSON has (no decimals, bytes, tuples
    or datetimes, integers of 64 bits, finite floats, string keys, nesting
    within the limit of [orjson]) and whose timestamp, if it has one, is
    read back by [ciso8601] from its UTC text, [format_message] returns a
    line, [parse_message] returns a message for that line without logging
    anything, and that message has the canonical mapping of [m]. *)
Theorem parse_format_round_trip :
  forall (m : Message) (d : py_dict) (option : Z),
    constructible m ->
    asdict m = Ok d ->
    json_native orjson_recursion_limit (PDict d) = true ->
    (forall t, time_extracted_of m = PDatetime t -> timestamp_round_trips t) ->
    exists line m',
      format_message m option = Ok line
      /\ (forall log, parse_message line log = (Ok (Some m'), log))
      /\ same_asdict m' m.
Proof.
  intros m d option Hc Hd Hn Hts.
  destruct (parse_format m d option Hd Hn) as (line & Hline & Hparse).
  assert (H : exists m', (forall log, parse_object (PDict d) log = (Ok (Some m'), log))
                         /\ asdict m' = Ok d).
  { destruct Hc as [(stream & record & version & te & Hm)
                   | [(stream & schema & kp & bp & Hm)
                     | [(value & Hm)
                       | [(stream & version & Hm)
                         | (stream & filepath & ff & c & b & te & Hm)]]]].
    - apply check_time_extracted_inv in Hm. destruct Hm as [Hc Hm].
      injection Hm as <-.
      exact (record_round_trip _ _ _ _ _ Hc Hd Hts).
    - exact (schema_round_trip _ _ _ _ _ _ Hm Hd).
    - injection Hm as <-. simpl in Hd. injection Hd as <-.
      exists (STATE value). split; reflexivity.
    - injection Hm as <-. simpl in Hd. injection Hd as <-.
      exists (ACTIVATE_VERSION stream version). split; reflexivity.
    - apply check_time_extracted_inv in Hm. destruct Hm as [Hc Hm].
      injection Hm as <-.
      refine (batch_round_trip _ _ _ _ _ _ _ _ Hc Hd Hts).
      now apply py_or_truthy. }
  destruct H as (m' & Hm' & Hd').
  exists line, m'. split; [exact Hline |]. split.
  - intros log. rewrite Hparse. apply Hm'.
  - exists d. auto.
Qed.

End Properties.

(** * The module on concrete inputs, with the reference collaborators *)

(** 0.1 and 10.5 as binary64. *)
Example binary64_tenth :
  binary64_of_ratio false 1 10 = FFin false 7205759403792794 (-56).
Proof. vm_compute. reflexivity. Qed.

Example binary64_ten_and_a_half :
  binary64_of_ratio false 21 2 = FFin false 5910974510923776 (-49).
Proof. vm_compute. reflexivity. Qed.

(** C1, as stated, fails: a SCHEMA message is constructed from the bare
    string ["id"] as [key_properties], and keeps the string. *)
Lemma SchemaMessage_accepts_bare_string :
  SchemaMessage (PStr "users") (PDict []) (PStr "id") PNone
  = Ok (SCHEMA (PStr "users") (PDict []) (PStr "id") PNone)
  /\ is_list (PStr "id") = false.
Proof. split; reflexivity. Qed.

(** C2, as stated, fails: the RECORD whose record holds the integer [2^64]
    is constructed, and [format_message] raises on it. *)
Lemma format_message_rejects_big_integer :
  RecordMessage (PStr "users") (PDict [(PStr "id", PInt (2 ^ 64))]) PNone PNone
  = Ok (RECORD (PStr "users") (PDict [(PStr "id", PInt (2 ^ 64))]) PNone PNone)
  /\ format_message (L := Reference.libs)
       (RECORD (PStr "users") (PDict [(PStr "id", PInt (2 ^ 64))]) PNone PNone) 0
     = Raise (JSONEncodeError [Lit "Integer exceeds 64-bit range"]).
Proof. split; vm_compute; reflexivity. Qed.

(** C2 on a RECORD with a version and an aware timestamp. *)
Lemma parse_format_round_trip_witness :
  exists line m',
    format_message (L := Reference.libs)
      (RECORD (PStr "users") users_record (PInt 2) (PDatetime extracted_at)) 0
    = Ok line
    /\ (forall log, parse_message (L := Reference.libs) line log = (Ok (Some m'), log))
    /\ same_asdict (L := Reference.libs) m'
         (RECORD (PStr "users") users_record (PInt 2) (PDatetime extracted_at)).
Proof.
  eapply (parse_format_round_trip (L := Reference.libs)).
  - left. exists (PStr "users"), users_record, (PInt 2), (PDatetime extracted_at).
    reflexivity.
  - vm_compute. reflexivity.
  - vm_compute. reflexivity.
  - intros t H. injection H as <-. split.
    + vm_compute. discriminate.
    + exists (mkDatetime 2020 3 1 1 30 5 120 (Some 0)).
      split; [vm_compute; reflexivity |].
      split; [discriminate | vm_compute; reflexivity].
Defined.



(** C4 on an object of the type [FUTURE_MSG]. *)
Lemma parse_message_unknown_type_witness :
  parse_message (L := Reference.libs)
    (line_of [("type", JStr "FUTURE_MSG"); ("x", JInt 1)]) []
  = (Ok None, []).
Proof.
  eapply (parse_message_unknown_type (L := Reference.libs)).
  - reflexivity.
  - reflexivity.
  - simpl. intros [H | [H | [H | [H | [H | []]]]]]; discriminate.
Defined.

(** C6, as stated, fails: 10.00000000000000000001 has a fractional part,
    and [format_message] writes it as the JSON integer 10. *)
Lemma decimal_with_fraction_written_as_integer :
  decimal_is_integral ten_and_a_bit = false
  /\ format_message (L := Reference.libs) (STATE (PDecimal ten_and_a_bit)) 0
     = Ok (mkEncoded (JObj [("type", JStr "STATE"); ("value", JInt 10)]) false).
Proof. split; vm_compute; reflexivity. Qed.

(** C6 on the decimals 10 and 10.5. *)
Lemma format_message_decimal_witness :
  dumps_value (L := Reference.libs) default 253 (PDecimal (DFin false 10 0))
  = Ok (JInt 10)
  /\ dumps_value (L := Reference.libs) default 253 (PDecimal (DFin false 105 (-1)))
     = Ok (JFloat (FFin false 5910974510923776 (-49))).
Proof.
  split.
  - apply (proj1 (proj2 (proj2
             (format_message_decimal (L := Reference.libs) false 10 0 253))));
      reflexivity.
  - apply (proj2 (proj1 (proj2
             (format_message_decimal (L := Reference.libs) false 105 (-1) 253))
             (FFin false 5910974510923776 (-49)))).
    repeat split; vm_compute; reflexivity.
Defined.

(** C7 on a RECORD with no version and no timestamp. *)
Lemma asdict_omits_absent_fields_witness :
  dict_contains "version" [(PStr "type", PStr "RECORD"); (PStr "stream", PStr "users");
                           (PStr "record", users_record)] = false
  /\ dict_contains "time_extracted"
       [(PStr "type", PStr "RECORD"); (PStr "stream", PStr "users");
        (PStr "record", users_record)] = false.
Proof.
  pose proof (asdict_omits_absent_fields (L := Reference.libs)
                (RECORD (PStr "users") users_record PNone PNone) _ eq_refl) as H.
  simpl in H. destruct H as [Hv Ht].
  split; [apply Hv | apply Ht]; reflexivity.
Defined.

(** C8 on a SCHEMA object with no [schema]. *)
Lemma parse_message_missing_required_key_witness :
  exists k' log',
    parse_message (L := Reference.libs)
      (line_of [("type", JStr "SCHEMA"); ("stream", JStr "s")]) []
    = (Raise (Exception_
                (missing_required_key k'
                   (PDict [(PStr "type", PStr "SCHEMA"); (PStr "stream", PStr "s")]))),
       log')
    /\ find (fun k0 =>
               negb (dict_contains k0
                       [(PStr "type", PStr "SCHEMA"); (PStr "stream", PStr "s")]))
            (required_keys "SCHEMA")
       = Some k'
    /\ In k' (required_keys "SCHEMA")
    /\ dict_lookup k' [(PStr "type", PStr "SCHEMA"); (PStr "stream", PStr "s")] = None.
Proof.
  apply (proj2 (parse_message_missing_required_key (L := Reference.libs)
                  (line_of [("type", JStr "SCHEMA"); ("stream", JStr "s")])
                  [(PStr "type", PStr "SCHEMA"); (PStr "stream", PStr "s")]
                  [] eq_refl) "SCHEMA" "schema").
  - reflexivity.
  - simpl. auto.
  - reflexivity.
Defined.

(** C9 with the string [id], and with the integer 7, as [key_properties]. *)
Lemma write_schema_key_properties_witness :
  write_schema_message (PStr "users") (PDict []) (PStr "id") PNone PNone
  = SchemaMessage (py_or PNone (PStr "users")) (PDict []) (PList [PStr "id"]) PNone
  /\ write_schema (L := Reference.libs) (PStr "users") (PDict []) (PInt 7) PNone PNone
       (mkStdout [] [])
     = (Raise (Exception_ [Lit "key_properties must be a string or list of strings"]),
        mkStdout [] []).
Proof.
  pose proof (write_schema_key_properties (L := Reference.libs)) as H.
  split.
  - apply (H (PStr "users") (PDict []) (PStr "id") PNone PNone (mkStdout [] [])).
    reflexivity.
  - apply (H (PStr "users") (PDict []) (PInt 7) PNone PNone (mkStdout [] []));
      reflexivity.
Defined.

(** C10 with the empty string as format. *)
Lemma BatchMessage_default_format_witness :
  BatchMessage (PStr "users") (PStr "/tmp/users0001.jsonl") (PStr "") PNone PNone PNone
  = Ok (BATCH (PStr "users") (PStr "/tmp/users0001.jsonl") (PStr "jsonl")
              PNone PNone PNone)
  /\ exists c b,
      parse_message (L := Reference.libs)
        (line_of [("type", JStr "BATCH"); ("stream", JStr "users");
                  ("filepath", JStr "/tmp/users0001.jsonl"); ("format", JStr "")]) []
      = (Ok (Some (BATCH (PStr "users") (PStr "/tmp/users0001.jsonl") (PStr "jsonl")
                         c b PNone)), []).
Proof.
  pose proof (BatchMessage_default_format (L := Reference.libs)
                (PStr "users") (PStr "/tmp/users0001.jsonl") (PStr "")
                PNone PNone PNone) as [Hc Hp].
  split.
  - apply Hc; reflexivity.
  - eapply Hp; reflexivity.
Defined.

(** * Further properties of the module *)

(** The [type] a message class writes in [asdict]. *)
Definition type_tag (m : Message) : string :=
  match m with
  | RECORD _ _ _ _ => "RECORD"
  | SCHEMA _ _ _ _ => "SCHEMA"
  | STATE _ => "STATE"
  | ACTIVATE_VERSION _ _ => "ACTIVATE_VERSION"
  | BATCH _ _ _ _ _ _ => "BATCH"
  end.

(** The two messages are of the same class. *)
Definition same_class (m1 m2 : Message) : bool :=
  match m1, m2 with
  | RECORD _ _ _ _, RECORD _ _ _ _
  | SCHEMA _ _ _ _, SCHEMA _ _ _ _
  | STATE _, STATE _
  | ACTIVATE_VERSION _ _, ACTIVATE_VERSION _ _
  | BATCH _ _ _ _ _ _, BATCH _ _ _ _ _ _ => true
  | _, _ => false
  end.

Definition bookmark_properties_of (m : Message) : pyval :=
  match m with SCHEMA _ _ _ bookmark_properties => bookmark_properties | _ => PNone end.

(** The keys of the object [parse_message] looks at. *)
Definition read_keys : list string :=
  ["type"; "time_extracted"; "stream"; "record"; "version"; "schema";
   "key_properties"; "bookmark_properties"; "value"; "filepath"; "format";
   "compression"; "batch_size"].

Section More.
Context {L : Libs}.

(** [write_records]: [write_record] on each record, in order, up to the
    first exception. *)
Fixpoint write_records (stream_name : pyval) (records : list pyval) (out : stdout)
  : result unit * stdout :=
  match records with
  | [] => (Ok tt, out)
  | record :: records' =>
      match write_record stream_name record PNone PNone out with
      | (Ok _, out') => write_records stream_name records' out'
      | (Raise e, out') => (Raise e, out')
      end
  end.

(** X1: [SchemaMessage.__init__] makes the one-element list of a [str] or
    [bytes] given as [bookmark_properties], and raises for any other true
    value that is no list.  So the [bookmark_properties] of a constructed
    SCHEMA is never a [str] or [bytes]: it is false or a non-empty list, and
    in [asdict] the key is absent or holds a non-empty list. *)
Theorem SchemaMessage_bookmark_properties :
  forall stream schema key_properties bookmark_properties : pyval,
    (is_str_or_bytes bookmark_properties = true ->
     SchemaMessage stream schema key_properties bookmark_properties
     = Ok (SCHEMA stream schema key_properties (PList [bookmark_properties])))
    /\ (is_str_or_bytes bookmark_properties = false ->
        truthy bookmark_properties = true ->
        is_list bookmark_properties = false ->
        SchemaMessage stream schema key_properties bookmark_properties
        = Raise (Exception_
                   [Lit "bookmark_properties must be a string or list of strings"]))
    /\ (forall m,
          SchemaMessage stream schema key_properties bookmark_properties = Ok m ->
          is_str_or_bytes (bookmark_properties_of m) = false
          /\ (truthy (bookmark_properties_of m) = true ->
              exists x l, bookmark_properties_of m = PList (x :: l))
          /\ forall d, asdict m = Ok d ->
                       dict_lookup "bookmark_properties" d = None
                       \/ exists x l,
                           dict_lookup "bookmark_properties" d = Some (PList (x :: l))).
Proof.
  intros stream schema kp bp. split; [| split].
  - intros Hs. unfold SchemaMessage. rewrite Hs. reflexivity.
  - intros Hs Ht Hl. unfold SchemaMessage. rewrite Hs, Ht, Hl. reflexivity.
  - intros m. unfold SchemaMessage.
    set (bp' := if is_str_or_bytes bp then PList [bp] else bp).
    assert (Hns : is_str_or_bytes bp' = false).
    { unfold bp'. destruct (is_str_or_bytes bp) eqn:E; [reflexivity | exact E]. }
    destruct (truthy bp') eqn:Ht; simpl.
    + destruct (is_list bp') eqn:Hl; simpl; [| discriminate].
      intros H. injection H as <-. simpl.
      destruct bp' as [| | | | | | l | | | |]; try discriminate.
      destruct l as [| x l]; [discriminate |].
      split; [reflexivity |]. split; [eauto |].
      intros d Hd. simpl in Hd. injection Hd as <-. right. exists x, l. reflexivity.
    + intros H. injection H as <-. simpl. split; [exact Hns |].
      split; [congruence |].
      intros d Hd. rewrite Ht in Hd. injection Hd as <-. left. reflexivity.
Qed.

Lemma dict_lookup_set_other (k k' : string) (v : pyval) (d : py_dict) :
  k <> k' -> dict_lookup k (dict_set k' v d) = dict_lookup k d.
Proof.
  intros Hne. induction d as [| [key v0] d IH]; simpl.
  - destruct (String.eqb_spec k' k); [congruence | reflexivity].
  - destruct (is_key k' key) eqn:Hk'; simpl.
    + apply is_key_true in Hk'. subst key. simpl.
      destruct (String.eqb_spec k' k); [congruence | reflexivity].
    + destruct (is_key k key); [reflexivity | exact IH].
Qed.

Lemma time_extracted_as_utc_inv (te s : pyval) :
  time_extracted_as_utc te = Ok s ->
  exists t, te = PDatetime t /\ s = PStr (utils_strftime (astimezone_utc t)).
Proof.
  destruct te; try discriminate. simpl. intros H. injection H as <-. eauto.
Qed.

(** X2: whenever [asdict] returns a mapping, its keys are strings, each
    once, the first key is [type], and its value is the tag of the class of
    the message, one of the five known tags; two messages have the same
    [type] in their mappings exactly when they are of the same class. *)
Theorem asdict_well_formed :
  forall (m : Message) (d : py_dict),
    asdict m = Ok d ->
    distinct_str_keys d = true
    /\ hd_error d = Some (PStr "type", PStr (type_tag m))
    /\ dict_lookup "type" d = Some (PStr (type_tag m))
    /\ In (type_tag m) known_types
    /\ forall m' d', asdict m' = Ok d' ->
                     (dict_lookup "type" d' = dict_lookup "type" d
                      <-> same_class m m' = true).
Proof.
  assert (Htag : forall m d, asdict m = Ok d ->
                             distinct_str_keys d = true
                             /\ hd_error d = Some (PStr "type", PStr (type_tag m))
                             /\ dict_lookup "type" d = Some (PStr (type_tag m))).
  { intros m d H.
    destruct m as [stream record version te | stream schema kp bp | value
                  | stream version | stream filepath fmt compression batch_size te];
      simpl in H.
    - destruct (is_None version); simpl in H;
        (destruct (truthy te);
         [destruct (time_extracted_as_utc te); simpl in H; [| discriminate] |]);
        injection H as <-; repeat split; reflexivity.
    - destruct (truthy bp); injection H as <-; repeat split; reflexivity.
    - injection H as <-; repeat split; reflexivity.
    - injection H as <-; repeat split; reflexivity.
    - destruct (is_None compression), (is_None batch_size); simpl in H;
        (destruct (truthy te);
         [destruct (time_extracted_as_utc te); simpl in H; [| discriminate] |]);
        injection H as <-; repeat split; reflexivity. }
  intros m d H. destruct (Htag m d H) as (Hk & Hh & Ht).
  repeat split; try assumption.
  - destruct m; simpl; tauto.
  - destruct (Htag m' d' H0) as (_ & _ & Ht'). rewrite Ht, Ht'.
    destruct m, m'; simpl; intros E; (reflexivity || discriminate).
  - destruct (Htag m' d' H0) as (_ & _ & Ht'). rewrite Ht, Ht'.
    destruct m, m'; simpl; intros E; (reflexivity || discriminate).
Qed.


(** Everything written to [sys.stdout.buffer] so far, flushed or not, in
    order. *)
Definition written (out : stdout) : list encoded :=
  (flushed out ++ buffered out)%list.

(** The line [write_record(stream_name, record)] writes for the record. *)
Definition record_line (stream_name record : pyval) (line : encoded) : Prop :=
  format_message (RECORD stream_name record PNone PNone) OPT_APPEND_NEWLINE = Ok line.


Lemma mapM_dict_keys (f : pyval -> result json) (d : py_dict)
    (fields : list (string * json)) :
  mapM (fun kv =>
          match dumps_key (fst kv) with
          | Ok k => match f (snd kv) with Ok j => Ok (k, j) | Raise e => Raise e end
          | Raise e => Raise e
          end) d = Ok fields ->
  map (fun kv => PStr (fst kv)) fields = map fst d.
Proof.
  revert fields. induction d as [| [key v] d IH]; intros fields H; simpl in H.
  - injection H as <-. reflexivity.
  - destruct key; try discriminate. simpl in H.
    destruct (f v) as [j |]; [| discriminate].
    destruct (mapM _ d) as [fs |] eqn:Hfs; [| discriminate].
    injection H as <-. simpl. f_equal. now apply IH.
Qed.

Lemma format_message_inv (m : Message) (option : Z) (line : encoded) :
  format_message m option = Ok line ->
  exists d fields,
    asdict m = Ok d
    /\ line = mkEncoded (JObj fields) (Z.testbit option 10)
    /\ map (fun kv => PStr (fst kv)) fields = map fst d
    /\ forall option',
        format_message m option' = Ok (mkEncoded (JObj fields) (Z.testbit option' 10)).
Proof.
  unfold format_message, orjson_dumps.
  destruct (asdict m) as [d |]; simpl; [| discriminate].
  destruct orjson_recursion_limit as [| n].
  - cbn [dumps_value]. rewrite resolve_default_native by reflexivity. discriminate.
  - rewrite dumps_value_dict.
    destruct (mapM _ d) as [fields |] eqn:Hf; simpl; [| discriminate].
    intros H. injection H as <-. exists d, fields.
    split; [reflexivity |]. split; [reflexivity |].
    split; [exact (mapM_dict_keys _ _ _ Hf) | reflexivity].
Qed.


Lemma write_message_ok (m : Message) (out out' : stdout) :
  write_message m out = (Ok tt, out') ->
  exists line,
    format_message m OPT_APPEND_NEWLINE = Ok line
    /\ trailing_newline line = true
    /\ out' = mkStdout [] (written out ++ [line])%list.
Proof.
  unfold write_message.
  destruct (format_message m OPT_APPEND_NEWLINE) as [line |] eqn:Hf; [| discriminate].
  intros H. injection H as <-. exists line. split; [reflexivity |]. split.
  - destruct (format_message_inv _ _ _ Hf) as (d & fields & _ & -> & _). reflexivity.
  - unfold stdout_flush, stdout_write, written. simpl. now rewrite app_assoc.
Qed.

Lemma write_message_raise (m : Message) (out out' : stdout) (e : exn) :
  write_message m out = (Raise e, out') ->
  format_message m OPT_APPEND_NEWLINE = Raise e /\ out' = out.
Proof.
  unfold write_message.
  destruct (format_message m OPT_APPEND_NEWLINE) as [line |]; [discriminate |].
  intros H. injection H as <- <-. auto.
Qed.

(** X6: [write_records] writes, for the records in order, the line of a
    RECORD with the stream name, no version and no timestamp, each ending in
    a newline.  When the formatting of a record raises, the lines of the
    records before it have been written and stay written, and the exception
    is the one of that record. *)
Theorem write_records_lines :
  forall (stream_name : pyval) (records : list pyval) (out : stdout),
    match write_records stream_name records out with
    | (Ok _, out') =>
        exists lines,
          Forall2 (record_line stream_name) records lines
          /\ Forall (fun line => trailing_newline line = true) lines
          /\ written out' = (written out ++ lines)%list
    | (Raise e, out') =>
        exists done record rest lines,
          records = (done ++ record :: rest)%list
          /\ Forall2 (record_line stream_name) done lines
          /\ format_message (RECORD stream_name record PNone PNone)
                            OPT_APPEND_NEWLINE = Raise e
          /\ written out' = (written out ++ lines)%list
    end.
Proof.
  intros stream_name records. induction records as [| record records IH]; intros out.
  - simpl. exists []. rewrite app_nil_r. auto.
  - cbn [write_records]. unfold write_record.
    change (RecordMessage (py_or PNone stream_name) record PNone PNone)
      with (Ok (RECORD stream_name record PNone PNone)).
    cbv beta iota.
    destruct (write_message (RECORD stream_name record PNone PNone) out)
      as [[[] | e] out1] eqn:Hw.
    + apply write_message_ok in Hw. destruct Hw as (line & Hf & Hnl & ->).
      specialize (IH (mkStdout [] (written out ++ [line])%list)).
      destruct (write_records _ _ _) as [[[] | e] out'].
      * destruct IH as (lines & Hl & Hn & Hw). exists (line :: lines).
        split; [constructor; assumption |]. split; [constructor; assumption |].
        rewrite Hw. unfold written at 1. simpl. rewrite app_nil_r.
        now rewrite <- app_assoc.
      * destruct IH as (done & r & rest & lines & -> & Hl & Hr & Hw).
        exists (record :: done), r, rest, (line :: lines).
        split; [reflexivity |]. split; [constructor; assumption |].
        split; [exact Hr |].
        rewrite Hw. unfold written at 1. simpl. rewrite app_nil_r.
        now rewrite <- app_assoc.
    + apply write_message_raise in Hw. destruct Hw as [Hf ->].
      exists [], record, records, []. rewrite app_nil_r.
      repeat split; [constructor | exact Hf].
Qed.

(** X7: [write_record] with a naive [time_extracted] raises [ValueError]
    and writes nothing.  When it succeeds, it has written and flushed one
    line: the RECORD of the stream alias if that is true and of the stream
    name otherwise, a JSON object with no [version] key. *)
Theorem write_record_effect :
  forall (stream_name record stream_alias time_extracted : pyval) (out : stdout),
    (forall t, time_extracted = PDatetime t -> tzinfo t = None ->
               write_record stream_name record stream_alias time_extracted out
               = (Raise (ValueError naive_time_extracted), out))
    /\ (forall out',
          write_record stream_name record stream_alias time_extracted out
          = (Ok tt, out') ->
          exists line fields,
            format_message
              (RECORD (if truthy stream_alias then stream_alias else stream_name)
                      record PNone time_extracted)
              OPT_APPEND_NEWLINE = Ok line
            /\ line = mkEncoded (JObj fields) true
            /\ ~ In "version" (map fst fields)
            /\ out' = mkStdout [] (written out ++ [line])%list).
Proof.
  intros stream_name record stream_alias te out. split.
  - intros t -> Ht. unfold write_record, RecordMessage, check_time_extracted.
    simpl. rewrite Ht. reflexivity.
  - intros out'. unfold write_record, RecordMessage, py_or.
    destruct (check_time_extracted te) as [[] |] eqn:Hc; simpl; [| discriminate].
    intros Hw. apply write_message_ok in Hw. destruct Hw as (line & Hf & Hnl & ->).
    destruct (format_message_inv _ _ _ Hf) as (d & fields & Hd & Hline & Hk & _).
    exists line, fields. split; [exact Hf |]. split; [exact Hline |].
    split; [| reflexivity].
    intros Hin.
    assert (Hin' : In (PStr "version") (map fst d)).
    { rewrite <- Hk. apply in_map_iff in Hin. destruct Hin as ([k j] & Hkj & Hin).
      simpl in Hkj. subst k. apply in_map_iff. exists ("version", j). auto. }
    simpl in Hd.
    destruct (truthy te);
      [destruct (time_extracted_as_utc te); simpl in Hd; [| discriminate] |];
      injection Hd as <-; simpl in Hin';
      repeat (destruct Hin' as [Hin' | Hin']; [discriminate |]); exact Hin'.
Qed.

(** X14: with values JSON has, [write_state] and [write_version] succeed,
    and the line they write ends in a newline and is parsed back by
    [parse_message], without a warning, to the STATE message of the value
    and to the ACTIVATE_VERSION message of the stream and the version. *)
Theorem write_state_version_parse :
  forall (n : nat) (stream version value : pyval) (out : stdout),
    orjson_recursion_limit = S n ->
    (json_native n value = true ->
     exists line,
       write_state value out = (Ok tt, mkStdout [] (written out ++ [line])%list)
       /\ trailing_newline line = true
       /\ forall log, parse_message line log = (Ok (Some (STATE value)), log))
    /\ (json_native n stream = true -> json_native n version = true ->
        exists line,
          write_version stream version out
          = (Ok tt, mkStdout [] (written out ++ [line])%list)
          /\ trailing_newline line = true
          /\ forall log,
              parse_message line log
              = (Ok (Some (ACTIVATE_VERSION stream version)), log)).
Proof.
  intros n stream version value out Hlimit. split.
  - intros Hv.
    destruct (parse_format (STATE value) _ OPT_APPEND_NEWLINE eq_refl)
      as (line & Hf & Hp).
    { rewrite Hlimit. cbn [json_native forallb snd]. rewrite Hv.
      destruct n; reflexivity. }
    exists line. unfold write_state, StateMessage, write_message. rewrite Hf.
    split; [| split].
    + unfold stdout_flush, stdout_write, written. simpl. now rewrite app_assoc.
    + destruct (format_message_inv _ _ _ Hf) as (d & fields & _ & -> & _). reflexivity.
    + intros log. rewrite Hp. reflexivity.
  - intros Hs Hv.
    destruct (parse_format (ACTIVATE_VERSION stream version) _ OPT_APPEND_NEWLINE eq_refl)
      as (line & Hf & Hp).
    { rewrite Hlimit. cbn [json_native forallb snd]. rewrite Hs, Hv.
      destruct n; reflexivity. }
    exists line. unfold write_version, ActivateVersionMessage, write_message. rewrite Hf.
    split; [| split].
    + unfold stdout_flush, stdout_write, written. simpl. now rewrite app_assoc.
    + destruct (format_message_inv _ _ _ Hf) as (d & fields & _ & -> & _). reflexivity.
    + intros log. rewrite Hp. reflexivity.
Qed.

Lemma required_key_inv (obj : pyval) (k : string) (v : pyval) :
  _required_key obj k = Ok v ->
  exists d, obj = PDict d /\ dict_lookup k d = Some v.
Proof.
  unfold _required_key, py_contains, py_getitem.
  destruct obj; simpl; try discriminate.
  - destruct (match String.index 0 k s with Some _ => true | None => false end);
      discriminate.
  - destruct (existsb (is_key k) l); discriminate.
  - destruct (existsb (is_key k) l); discriminate.
  - unfold dict_contains. destruct (dict_lookup k items) as [v0 |] eqn:Hk; simpl.
    + intros H. injection H as <-. eauto.
    + discriminate.
Qed.

(** X8: on a JSON text that is not an object [parse_message] never returns
    a message and logs nothing: it raises.  For an array that does not hold
    the string [type] the exception is the one of a missing [type]; for
    [null] it is a [TypeError]. *)
Theorem parse_message_not_an_object :
  forall (msg : encoded) (log : logger),
    (forall d, orjson_loads msg <> PDict d) ->
    (exists e, parse_message msg log = (Raise e, log))
    /\ (forall l, orjson_loads msg = PList l ->
                  existsb (is_key "type") l = false ->
                  parse_message msg log
                  = (Raise (Exception_ (missing_required_key "type" (PList l))), log))
    /\ (is_None (orjson_loads msg) = true ->
        parse_message msg log = (Raise TypeError, log)).
Proof.
  intros msg log Hobj. unfold parse_message, parse_object. repeat split.
  - destruct (_required_key (orjson_loads msg) "type") as [v | e] eqn:H; [| eauto].
    apply required_key_inv in H. destruct H as (d & Hd & _).
    now apply Hobj in Hd.
  - intros l -> Hl. unfold _required_key, py_contains. rewrite Hl. reflexivity.
  - intros Hn. apply is_None_true in Hn. rewrite Hn. reflexivity.
Qed.

Lemma parse_time_extracted_cases (w : string) (d : py_dict) (log : logger) :
  (exists v, parse_time_extracted w (PDict d) log = (Ok v, log))
  \/ (exists te,
         dict_lookup "time_extracted" d = Some te
         /\ truthy te = true
         /\ ciso8601_parse_datetime te = None
         /\ parse_time_extracted w (PDict d) log = (Ok PNone, (log ++ [w])%list)).
Proof.
  unfold parse_time_extracted, py_get, dict_get, LOGGER_warning.
  destruct (dict_lookup "time_extracted" d) as [te |] eqn:Hte;
    [| left; eexists; reflexivity].
  destruct (truthy te) eqn:Ht; [| left; eexists; reflexivity].
  destruct (ciso8601_parse_datetime te) eqn:Hp; [left; eexists; reflexivity |].
  right. exists te. repeat split; auto.
Qed.

(** X9: [parse_message] logs nothing, or exactly one warning; it logs one
    only for an object of type RECORD or BATCH whose [time_extracted] is
    true and cannot be parsed by [ciso8601]. *)
Theorem parse_message_logs_at_most_one_warning :
  forall (msg : encoded) (log log' : logger) (r : result (option Message)),
    parse_message msg log = (r, log') ->
    log' = log
    \/ exists d time_extracted,
        orjson_loads msg = PDict d
        /\ dict_lookup "time_extracted" d = Some time_extracted
        /\ truthy time_extracted = true
        /\ ciso8601_parse_datetime time_extracted = None
        /\ ((dict_lookup "type" d = Some (PStr "RECORD")
             /\ log' = (log ++ ["unable to parse time_extracted with ciso8601 library"])%list)
            \/ (dict_lookup "type" d = Some (PStr "BATCH")
                /\ log' = (log ++ ["Unable to parse time_extracted with ciso8601 library"])%list)).
Proof.
  intros msg log log' r. unfold parse_message, parse_object.
  destruct (_required_key (orjson_loads msg) "type") as [msg_type | e] eqn:Htype.
  2: { intros H. injection H as _ <-. now left. }
  apply required_key_inv in Htype. destruct Htype as (d & Hd & Htype).
  rewrite Hd. unfold py_eq_str.
  destruct (is_key "RECORD" msg_type) eqn:E1.
  { apply is_key_true in E1. subst msg_type.
    destruct (parse_time_extracted_cases
                "unable to parse time_extracted with ciso8601 library" d log)
      as [(v & ->) | (te & Hte & Ht & Hp & ->)];
      intros H; injection H as _ <-; [now left |].
    right. exists d, te. auto 10. }
  destruct (is_key "SCHEMA" msg_type); [intros H; injection H as _ <-; now left |].
  destruct (is_key "STATE" msg_type); [intros H; injection H as _ <-; now left |].
  destruct (is_key "ACTIVATE_VERSION" msg_type);
    [intros H; injection H as _ <-; now left |].
  destruct (is_key "BATCH" msg_type) eqn:E5.
  { apply is_key_true in E5. subst msg_type.
    destruct (parse_time_extracted_cases
                "Unable to parse time_extracted with ciso8601 library" d log)
      as [(v & ->) | (te & Hte & Ht & Hp & ->)];
      intros H; injection H as _ <-; [now left |].
    right. exists d, te. auto 10. }
  intros H. injection H as _ <-. now left.
Qed.




Lemma required_key_ext (d1 d2 : py_dict) (k : string) :
  dict_lookup k d1 = dict_lookup k d2 ->
  match _required_key (PDict d1) k with
  | Ok v => _required_key (PDict d2) k = Ok v
  | Raise _ => True
  end.
Proof.
  intros H. unfold _required_key, py_contains, py_getitem, dict_contains. simpl.
  rewrite <- H. destruct (dict_lookup k d1); simpl; auto.
Qed.

Lemma parse_time_extracted_ext (w : string) (d1 d2 : py_dict) (log : logger) :
  dict_lookup "time_extracted" d1 = dict_lookup "time_extracted" d2 ->
  parse_time_extracted w (PDict d1) log = parse_time_extracted w (PDict d2) log.
Proof.
  intros H. unfold parse_time_extracted, py_get, dict_get. now rewrite H.
Qed.

Lemma py_get_ext (d1 d2 : py_dict) (k : string) :
  dict_lookup k d1 = dict_lookup k d2 -> py_get (PDict d1) k = py_get (PDict d2) k.
Proof. intros H. unfold py_get, dict_get. now rewrite H. Qed.

(** Moves the next [_required_key] of the hypothesis from one object to the
    other, which has the same value for the key. *)
Ltac same_required H d2 Hext :=
  match type of H with
  | context [_required_key (PDict ?d1) ?k] =>
      let E := fresh "E" in
      pose proof (required_key_ext d1 d2 k (Hext k ltac:(simpl; tauto))) as E;
      destruct (_required_key (PDict d1) k);
      [rewrite E; clear E; simpl in H; simpl | simpl in H; discriminate]
  end.

(** X11: [parse_message] looks at thirteen keys only.  Two objects that
    agree on them (whatever other keys they have, and in whatever order)
    give the same successful result and the same warnings. *)
Theorem parse_message_reads_known_keys :
  forall (msg1 msg2 : encoded) (d1 d2 : py_dict) (log log' : logger)
         (r : option Message),
    orjson_loads msg1 = PDict d1 ->
    orjson_loads msg2 = PDict d2 ->
    (forall k, In k read_keys -> dict_lookup k d1 = dict_lookup k d2) ->
    parse_message msg1 log = (Ok r, log') ->
    parse_message msg2 log = (Ok r, log').
Proof.
  intros msg1 msg2 d1 d2 log log' r H1 H2 Hext.
  unfold parse_message, parse_object. rewrite H1, H2.
  pose proof (required_key_ext d1 d2 "type" (Hext "type" ltac:(simpl; tauto))) as Et.
  destruct (_required_key (PDict d1) "type") as [msg_type |]; [| discriminate].
  rewrite Et. clear Et.
  rewrite <- (parse_time_extracted_ext _ d1 d2 log
                (Hext "time_extracted" ltac:(simpl; tauto))).
  rewrite <- (parse_time_extracted_ext
                "Unable to parse time_extracted with ciso8601 library" d1 d2 log
                (Hext "time_extracted" ltac:(simpl; tauto))).
  rewrite <- (py_get_ext d1 d2 "version" (Hext "version" ltac:(simpl; tauto))).
  rewrite <- (py_get_ext d1 d2 "bookmark_properties"
                (Hext "bookmark_properties" ltac:(simpl; tauto))).
  rewrite <- (py_get_ext d1 d2 "compression" (Hext "compression" ltac:(simpl; tauto))).
  rewrite <- (py_get_ext d1 d2 "batch_size" (Hext "batch_size" ltac:(simpl; tauto))).
  destruct (py_eq_str msg_type "RECORD").
  { destruct (parse_time_extracted _ (PDict d1) log) as [[te |] log1];
      [| discriminate].
    intros H. injection H as H <-.
    same_required H d2 Hext. same_required H d2 Hext. now rewrite H. }
  destruct (py_eq_str msg_type "SCHEMA").
  { intros H. injection H as H <-.
    same_required H d2 Hext. same_required H d2 Hext. same_required H d2 Hext.
    now rewrite H. }
  destruct (py_eq_str msg_type "STATE").
  { intros H. injection H as H <-. same_required H d2 Hext. now rewrite H. }
  destruct (py_eq_str msg_type "ACTIVATE_VERSION").
  { intros H. injection H as H <-.
    same_required H d2 Hext. same_required H d2 Hext. now rewrite H. }
  destruct (py_eq_str msg_type "BATCH"); [| auto].
  destruct (parse_time_extracted _ (PDict d1) log) as [[te |] log1];
    [| discriminate].
  intros H. injection H as H <-.
  same_required H d2 Hext. same_required H d2 Hext. same_required H d2 Hext.
  now rewrite H.
Qed.

Lemma dumps_value_via_default (fuel : nat) (v v' : pyval) :
  natively_supported v = false ->
  default v = Ok v' ->
  natively_supported v' = true ->
  dumps_value default fuel v = dumps_value default fuel v'.
Proof.
  intros Hv Hd Hv'.
  assert (Hr : resolve_default default DEFAULT_CALLS_LIMIT v = Ok v').
  { change DEFAULT_CALLS_LIMIT with (S 253).
    rewrite resolve_default_step by exact Hv. rewrite Hd.
    now apply resolve_default_native. }
  destruct fuel; cbn [dumps_value]; rewrite Hr;
    rewrite (resolve_default_native default _ v' Hv'); reflexivity.
Qed.

Lemma dumps_value_default_raise (fuel : nat) (v : pyval) (e : exn) :
  natively_supported v = false ->
  default v = Raise e ->
  dumps_value default fuel v
  = Raise (JSONEncodeError [Lit "Type is not JSON serializable"]).
Proof.
  intros Hv Hd.
  assert (Hr : resolve_default default DEFAULT_CALLS_LIMIT v
               = Raise (JSONEncodeError [Lit "Type is not JSON serializable"])).
  { change DEFAULT_CALLS_LIMIT with (S 253).
    rewrite resolve_default_step by exact Hv. now rewrite Hd. }
  destruct fuel; cbn [dumps_value]; rewrite Hr; reflexivity.
Qed.

(** X12: where [format_message] meets a decimal that is an infinity or a
    quiet NaN, it writes [null]; [bytes] always make it raise.  On a decimal
    it raises in two cases only: a signaling NaN, and a finite decimal whose
    nearest float is integral while its integer part is outside the 64-bit
    range. *)
Theorem format_message_decimal_failures :
  forall (fuel : nat) (d : decimal),
    (forall neg, dumps_value default fuel (PDecimal (DInf neg)) = Ok JNull)
    /\ dumps_value default fuel (PDecimal (DNaN false)) = Ok JNull
    /\ (forall s, dumps_value default fuel (PBytes s)
                  = Raise (JSONEncodeError [Lit "Type is not JSON serializable"]))
    /\ (forall e,
          dumps_value default fuel (PDecimal d) = Raise e
          <-> (d = DNaN true
               /\ e = JSONEncodeError [Lit "Type is not JSON serializable"])
              \/ (exists neg c x,
                     d = DFin neg c x
                     /\ float_is_integer (float_of_finite neg c x) = true
                     /\ in_int64_range (decimal_trunc neg c x) = false
                     /\ e = JSONEncodeError [Lit "Integer exceeds 64-bit range"])).
Proof.
  intros fuel d.
  assert (Hinf : forall neg, dumps_value default fuel (PDecimal (DInf neg)) = Ok JNull).
  { intros neg.
    rewrite (dumps_value_via_default fuel _ (PFloat (FInf neg))) by reflexivity.
    now rewrite dumps_value_scalar. }
  assert (Hnan : dumps_value default fuel (PDecimal (DNaN false)) = Ok JNull).
  { rewrite (dumps_value_via_default fuel _ (PFloat FNan)) by reflexivity.
    now rewrite dumps_value_scalar. }
  split; [exact Hinf |]. split; [exact Hnan |]. split.
  - intros s. now apply (dumps_value_default_raise fuel _ TypeError).
  - intros e. destruct d as [neg c x | neg | [|]].
    + rewrite dumps_value_decimal. cbv zeta. split.
      * destruct (float_is_integer _) eqn:Hf; [| discriminate].
        destruct (in_int64_range _) eqn:Hr; [discriminate |].
        intros H. injection H as <-. right. exists neg, c, x. auto.
      * intros [[H _] | (neg' & c' & x' & H & Hf & Hr & ->)]; [discriminate |].
        injection H as <- <- <-. now rewrite Hf, Hr.
    + rewrite Hinf. split; [discriminate |].
      intros [[H _] | (neg' & c' & x' & H & _)]; discriminate.
    + rewrite (dumps_value_default_raise fuel _
                 (ValueError [Lit "cannot convert signaling NaN to float"]))
        by reflexivity.
      split.
      * intros H. injection H as <-. left. auto.
      * intros [[_ ->] | (neg' & c' & x' & H & _)]; [reflexivity | discriminate].
    + rewrite Hnan. split; [discriminate |].
      intros [[H _] | (neg' & c' & x' & H & _)]; discriminate.
Qed.

(** X13: [asdict], and so the equality of messages, tests
    [time_extracted] and [bookmark_properties] by truth value: two RECORD,
    BATCH or SCHEMA messages that differ only in a false value there ([None],
    the empty string, the empty list) have the same mapping.  [version],
    [compression] and [batch_size] are tested with [is not None]: any other
    value, also a false one, is in the mapping. *)
Theorem equality_and_false_optional_fields :
  forall (stream record version schema key_properties filepath format
          compression batch_size : pyval),
    (forall te1 te2,
       truthy te1 = false -> truthy te2 = false ->
       same_asdict (RECORD stream record version te1) (RECORD stream record version te2)
       /\ same_asdict (BATCH stream filepath format compression batch_size te1)
                      (BATCH stream filepath format compression batch_size te2))
    /\ (forall bp1 bp2,
          truthy bp1 = false -> truthy bp2 = false ->
          same_asdict (SCHEMA stream schema key_properties bp1)
                      (SCHEMA stream schema key_properties bp2))
    /\ (forall te d,
          asdict (RECORD stream record version te) = Ok d ->
          is_None version = false ->
          dict_lookup "version" d = Some version)
    /\ (forall te d,
          asdict (BATCH stream filepath format compression batch_size te) = Ok d ->
          (is_None compression = false ->
           dict_lookup "compression" d = Some compression)
          /\ (is_None batch_size = false ->
              dict_lookup "batch_size" d = Some batch_size)).
Proof.
  intros stream record version schema kp filepath fmt c b.
  split; [| split; [| split]].
  - intros te1 te2 H1 H2. split; eexists; simpl; rewrite H1, H2; split; reflexivity.
  - intros bp1 bp2 H1 H2. eexists. simpl. rewrite H1, H2. split; reflexivity.
  - intros te d H Hv. simpl in H. rewrite Hv in H. simpl in H.
    destruct (truthy te);
      [destruct (time_extracted_as_utc te); simpl in H; [| discriminate] |];
      injection H as <-; reflexivity.
  - intros te d H. simpl in H. split; intros Hn; rewrite Hn in H; simpl in H.
    + destruct (is_None b); simpl in H;
        (destruct (truthy te);
         [destruct (time_extracted_as_utc te); simpl in H; [| discriminate] |]);
        injection H as <-; reflexivity.
    + destruct (is_None c); simpl in H;
        (destruct (truthy te);
         [destruct (time_extracted_as_utc te); simpl in H; [| discriminate] |]);
        injection H as <-; reflexivity.
Qed.



End More.

(** ** The further properties on concrete inputs *)

(** X2 on the RECORD of a user. *)
Lemma asdict_well_formed_witness :
  distinct_str_keys
    [(PStr "type", PStr "RECORD"); (PStr "stream", PStr "users");
     (PStr "record", users_record); (PStr "version", PInt 0)] = true
  /\ dict_lookup "type"
       [(PStr "type", PStr "RECORD"); (PStr "stream", PStr "users");
        (PStr "record", users_record); (PStr "version", PInt 0)]
     = Some (PStr "RECORD").
Proof.
  destruct (asdict_well_formed (L := Reference.libs)
              (RECORD (PStr "users") users_record (PInt 0) PNone) _ eq_refl)
    as (Hkeys & _ & Htype & _).
  split; [exact Hkeys | exact Htype].
Defined.



(** X8 on the array [[1, 2]]. *)
Lemma parse_message_not_an_object_witness :
  exists e,
    parse_message (L := Reference.libs) (mkEncoded (JArr [JInt 1; JInt 2]) true) []
    = (Raise e, []).
Proof.
  apply (parse_message_not_an_object (L := Reference.libs)
           (mkEncoded (JArr [JInt 1; JInt 2]) true) []).
  intros d H. discriminate H.
Defined.

(** X9 on a RECORD with the [time_extracted] ["not-a-date"]. *)
Lemma parse_message_logs_at_most_one_warning_witness :
  ["unable to parse time_extracted with ciso8601 library"] = @nil string
  \/ exists d time_extracted,
      orjson_loads
        (line_of [("type", JStr "RECORD"); ("stream", JStr "s");
                  ("record", JObj []); ("time_extracted", JStr "not-a-date")])
      = PDict d
      /\ dict_lookup "time_extracted" d = Some time_extracted
      /\ truthy time_extracted = true
      /\ ciso8601_parse_datetime (Libs := Reference.libs) time_extracted = None
      /\ ((dict_lookup "type" d = Some (PStr "RECORD")
           /\ ["unable to parse time_extracted with ciso8601 library"]
              = ([] ++ ["unable to parse time_extracted with ciso8601 library"])%list)
          \/ (dict_lookup "type" d = Some (PStr "BATCH")
              /\ ["unable to parse time_extracted with ciso8601 library"]
                 = ([] ++ ["Unable to parse time_extracted with ciso8601 library"])%list)).
Proof.
  apply (parse_message_logs_at_most_one_warning (L := Reference.libs)
           (line_of [("type", JStr "RECORD"); ("stream", JStr "s");
                     ("record", JObj []); ("time_extracted", JStr "not-a-date")])
           [] ["unable to parse time_extracted with ciso8601 library"]
           (Ok (Some (RECORD (PStr "s") (PDict []) PNone PNone)))).
  vm_compute. reflexivity.
Defined.


(** X11 on a STATE object, with and without a key that is not read. *)
Lemma parse_message_reads_known_keys_witness :
  parse_message (L := Reference.libs)
    (line_of [("note", JStr "ignored"); ("value", JInt 1); ("type", JStr "STATE")]) []
  = (Ok (Some (STATE (PInt 1))), []).
Proof.
  apply (parse_message_reads_known_keys (L := Reference.libs)
           (line_of [("type", JStr "STATE"); ("value", JInt 1)])
           (line_of [("note", JStr "ignored"); ("value", JInt 1);
                     ("type", JStr "STATE")])
           [(PStr "type", PStr "STATE"); (PStr "value", PInt 1)]
           [(PStr "note", PStr "ignored"); (PStr "value", PInt 1);
            (PStr "type", PStr "STATE")]
           [] [] (Some (STATE (PInt 1))) eq_refl eq_refl).
  - intros k Hin. unfold read_keys in Hin.
    repeat (destruct Hin as [<- | Hin]; [reflexivity |]). destruct Hin.
  - reflexivity.
Defined.

(** X14 on the state of a user record, and on version 2 of the stream. *)
Lemma write_state_version_parse_witness :
  (exists line,
      write_state (L := Reference.libs) users_record (mkStdout [] [])
      = (Ok tt, mkStdout [] ([] ++ [line])%list)
      /\ trailing_newline line = true
      /\ forall log,
          parse_message (L := Reference.libs) line log
          = (Ok (Some (STATE users_record)), log))
  /\ exists line,
      write_version (L := Reference.libs) (PStr "users") (PInt 2) (mkStdout [] [])
      = (Ok tt, mkStdout [] ([] ++ [line])%list)
      /\ trailing_newline line = true
      /\ forall log,
          parse_message (L := Reference.libs) line log
          = (Ok (Some (ACTIVATE_VERSION (PStr "users") (PInt 2))), log).
Proof.
  destruct (write_state_version_parse (L := Reference.libs) 253
              (PStr "users") (PInt 2) users_record (mkStdout [] []) eq_refl)
    as [Hs Hv].
  split.
  - apply Hs. vm_compute. reflexivity.
  - apply Hv; vm_compute; reflexivity.
Defined.
